(** * cow_converter: shallow embedding of [aosp/cow_converter.cc]

    The tool reads an OTA payload, walks the partitions of its manifest and
    writes one COW file per partition next to the extracted target image,
    logging how the size of the file compares with the manifest's estimate.

    The embedding follows the source function by function:
    [ProcessPartition] and [main].  Everything the source calls but does not
    define (system calls, the payload parser, the COW writer, the dry-run
    interpreter, the path library) is a field of the class [World]; the
    program is written in a state monad over an abstract world value and
    records every call it makes in a trace. *)

From Stdlib Require Import ZArith List Bool Lia Ascii String.
From Stdlib Require Import Floats.SpecFloat.
From stdpp Require Import base gmap strings list.

Local Open Scope string_scope.
Local Open Scope Z_scope.
Local Open Scope list_scope.

(** ** Machine integers (LP64: [size_t], [uint64_t] and [off_t] are 64 bits) *)

Module Int.

Definition two32 : Z := 2 ^ 32.
Definition two64 : Z := 2 ^ 64.

(** [static_cast<uint32_t>(x)] *)
Definition to_uint32 (x : Z) : Z := x mod two32.

(** conversion to [uint64_t] / [size_t] *)
Definition to_uint64 (x : Z) : Z := x mod two64.


(** unsigned 64-bit [a - b] and [a + b] *)
Definition sub64 (a b : Z) : Z := to_uint64 (a - b).
Definition add64 (a b : Z) : Z := to_uint64 (a + b).

End Int.

(** ** Single-precision floats

    The percentages are computed in [float] ([100.0f]).  Standard Library's
    [SpecFloat] gives IEEE 754 arithmetic for any format; binary32 has a
    24-bit significand and [emax = 128]. *)

Module F32.

Definition prec : Z := 24.
Definition emax : Z := 128.

(** integer to [float] conversion, round to nearest even *)
Definition of_Z (z : Z) : spec_float := binary_normalize prec emax z 0 false.

Definition mul : spec_float -> spec_float -> spec_float := SFmul prec emax.
Definition div : spec_float -> spec_float -> spec_float := SFdiv prec emax.

(** the literal [100.0f] *)
Definition hundred : spec_float := of_Z 100.

Definition zero : spec_float := S754_zero false.

(** [x < 0] *)
Definition is_negative (x : spec_float) : bool := SFltb x zero.

(** sign bit clear, or NaN *)
Definition sign_clear (x : spec_float) : bool :=
  match x with
  | S754_zero s | S754_infinity s | S754_finite s _ _ => negb s
  | S754_nan => true
  end.

End F32.

(** ** The manifest (update_metadata.proto), restricted to the fields the
    tool reads.  Field types follow the protobuf declarations:
    [block_size] and [cow_version] are [uint32], sizes and
    [estimate_cow_size] are [uint64]. *)

Record Extent := {
  start_block : Z;
  num_blocks : Z
}.

Inductive InstallOperationType :=
| REPLACE | REPLACE_BZ | REPLACE_XZ | REPLACE_ZSTD
| SOURCE_COPY | ZERO | DISCARD.

Record InstallOperation := {
  op_type : InstallOperationType;
  src_extents : list Extent;
  dst_extents : list Extent
}.

Record CowMergeOperation := {
  merge_src_extent : Extent;
  merge_dst_extent : Extent
}.

Record PartitionInfo := {
  size : Z
}.

Record PartitionUpdate := {
  partition_name : string;
  estimate_cow_size : Z;
  new_partition_info : PartitionInfo;
  old_partition_info : PartitionInfo;
  operations : list InstallOperation;
  merge_operations : list CowMergeOperation
}.

Record DynamicPartitionMetadata := {
  vabc_compression_param : string;
  cow_version : Z
}.

Record DeltaArchiveManifest := {
  block_size : Z;
  partitions : list PartitionUpdate;
  dynamic_partition_metadata : DynamicPartitionMetadata
}.

(** ** [android::snapshot::CowOptions], the fields the tool sets *)

Record CowOptions := {
  opt_block_size : Z;
  opt_compression : string;
  opt_batch_write : bool;
  opt_op_count_max : Z
}.

Definition set_compression (o : CowOptions) (c : string) : CowOptions :=
  {| opt_block_size := opt_block_size o;
     opt_compression := c;
     opt_batch_write := opt_batch_write o;
     opt_op_count_max := opt_op_count_max o |}.

Inductive MetadataParseResult := kSuccess | kError | kInsufficientData.

Definition MetadataParseResult_eqb (a b : MetadataParseResult) : bool :=
  match a, b with
  | kSuccess, kSuccess | kError, kError
  | kInsufficientData, kInsufficientData => true
  | _, _ => false
  end.

(** ** Command line flags (the three [DEFINE_*] globals) *)

Record Flags := {
  FLAGS_partitions : string;
  FLAGS_cow_version : Z;
  FLAGS_vabc_compression_param : string
}.

(** ** Constants of <fcntl.h> and <sys/mman.h> (Linux/bionic values) *)

Definition O_RDONLY : Z := 0.
Definition O_RDWR : Z := 2.
Definition O_CREAT : Z := 64.
Definition PROT_READ : Z := 1.
Definition MAP_PRIVATE : Z := 2.
Definition nullptr : Z := 0.
(** [((void* ) -1)] as a 64-bit address *)
Definition MAP_FAILED : Z := Int.two64 - 1.
(** the octal literal [0744] *)
Definition mode_0744 : Z := 7 * 64 + 4 * 8 + 4.

(** ** [android::base::Tokenize]

    Splits at every delimiter character and drops empty tokens
    (find_first_not_of / find_first_of loop of libbase's strings.cpp). *)

Definition is_delimiter (delimiters : string) (c : ascii) : bool :=
  existsb (Ascii.eqb c) (list_ascii_of_string delimiters).

Definition flush_token (cur : string) (acc : list string) : list string :=
  if String.eqb cur "" then acc else acc ++ [cur].

Fixpoint tokenize_go (delimiters : string) (s : string) (cur : string)
    (acc : list string) : list string :=
  match s with
  | EmptyString => flush_token cur acc
  | String c s' =>
      if is_delimiter delimiters c
      then tokenize_go delimiters s' "" (flush_token cur acc)
      else tokenize_go delimiters s' (cur +:+ String c EmptyString) acc
  end.

Definition Tokenize (s delimiters : string) : list string :=
  tokenize_go delimiters s "" [].

(** ** Log lines and trace events *)

Inductive LogSeverity := INFO | ERROR.

(** One operand of a [<<] chain. *)
Inductive LogItem :=
| Str (s : string)
| Num (n : Z)
| Flt (x : spec_float).

Inductive event :=
| EvPrintf (fmt : string) (arg : string)
| EvLog (sev : LogSeverity) (with_errno : bool) (line : list LogItem)
| EvOpen (path : string) (flags : Z) (mode : option Z)
| EvClose (fd : Z)
| EvFileSizeFd (fd : Z)
| EvFileSizePath (path : string)
| EvMmap (len prot flags fd off : Z)
| EvMunmap (addr len : Z)
| EvFdOpen (path : string) (flags : Z)
| EvFdClose (path : string)
| EvParsePayloadHeader (payload payload_size : Z)
| EvGetManifest (payload payload_size : Z)
| EvCreateCowWriter (version : Z) (options : CowOptions) (fd : Z)
| EvCowDryRun (target_img : string)
    (ops : list InstallOperation) (merge_ops : list CowMergeOperation)
    (blk : Z) (writer : Z) (new_size old_size : Z) (xor_enabled : bool)
| EvFinalize (writer : Z).

(** ** The outside world

    Every collaborator takes the world and returns its result with the new
    world.  System calls and the file and writer helpers always return.
    The two payload parsers read the memory behind the pointer they are
    given: they return [None] when the call does not return (the process
    faults inside it).  [FilePath_Append] is [base::FilePath::Append];
    [sys_mmap] is called with a null address hint and returns the mapped
    address or [MAP_FAILED].  [fd_Open] and [fd_Close] are the methods of
    [EintrSafeFileDescriptor]; the descriptor object is named by the path
    it was opened on. *)

Class World (W : Type) := {
  FilePath_Append : string -> string -> string;
  sys_open : string -> Z -> option Z -> W -> Z * W;
  sys_close : Z -> W -> unit * W;
  sys_mmap : Z -> Z -> Z -> Z -> Z -> W -> Z * W;
  sys_munmap : Z -> Z -> W -> unit * W;
  FileSize_fd : Z -> W -> Z * W;
  FileSize_path : string -> W -> Z * W;
  fd_Open : string -> Z -> W -> bool * W;
  fd_Close : string -> W -> unit * W;
  ParsePayloadHeader : Z -> Z -> W -> option (MetadataParseResult * W);
  GetManifest : Z -> Z -> W -> option (option DeltaArchiveManifest * W);
  CreateCowWriter : Z -> CowOptions -> Z -> W -> option Z * W;
  CowDryRun : string -> list InstallOperation -> list CowMergeOperation ->
              Z -> Z -> Z -> Z -> bool -> W -> bool * W;
  Finalize : Z -> W -> bool * W
}.

(** ** The monad: world and trace, with a fault outcome *)

Record State (W : Type) := mkState {
  world : W;
  trace : list event
}.
Arguments mkState {W} _ _.
Arguments world {W} _.
Arguments trace {W} _.

Inductive Outcome (W A : Type) :=
| Done (a : A) (s : State W)
| Undefined (s : State W).
Arguments Done {W A} _ _.
Arguments Undefined {W A} _.

Definition M (W A : Type) : Type := State W -> Outcome W A.

Definition ret {W A} (a : A) : M W A := fun s => Done a s.

Definition bind {W A B} (m : M W A) (k : A -> M W B) : M W B :=
  fun s => match m s with
           | Done a s' => k a s'
           | Undefined s' => Undefined s'
           end.

Notation "x <- m ;; k" := (bind m (fun x => k))
  (at level 100, m at next level, right associativity).
Notation "m ;;; k" := (bind m (fun _ => k))
  (at level 100, right associativity).

Definition record {W} (s : State W) (e : event) (w : W) : State W :=
  mkState w (trace s ++ [e]).

(** a call of a collaborator, recorded in the trace *)
Definition call {W A} (e : event) (op : W -> A * W) : M W A :=
  fun s => let (a, w') := op (world s) in Done a (record s e w').

(** a call that may fault *)
Definition call_partial {W A} (e : event) (op : W -> option (A * W)) : M W A :=
  fun s => match op (world s) with
           | Some (a, w') => Done a (record s e w')
           | None => Undefined (record s e (world s))
           end.

Definition emit {W} (e : event) : M W unit :=
  fun s => Done tt (record s e (world s)).

(** undefined behaviour in the tool's own code *)
Definition undefined {W A} : M W A := fun s => Undefined s.

Definition LOG {W} (sev : LogSeverity) (line : list LogItem) : M W unit :=
  emit (EvLog sev false line).

Definition PLOG {W} (sev : LogSeverity) (line : list LogItem) : M W unit :=
  emit (EvLog sev true line).

(** ** The program *)

(** The format of the usage message, which ends with a newline. *)
Definition usage_format : string :=
  "Usage: %s <payload.bin> <extracted target_file>" +:+ String "010" "".

(** [num * 100.0f / den]: the integer operands are converted to [float],
    the product and the quotient are single-precision operations. *)
Definition percent_smaller (num den : Z) : spec_float :=
  F32.div (F32.mul (F32.of_Z num) F32.hundred) (F32.of_Z den).

(** The per-partition line of [main]'s loop.  [actual_cow_size] is an
    [off_t]; subtracting the [uint64] estimate converts it to [uint64], so
    the difference is taken modulo [2^64].  The divisor is the signed
    [off_t]. *)
Definition partition_line (name : string) (estimate actual_cow_size : Z)
    : list LogItem :=
  [ Str name;
    Str ": estimated COW size is: "; Num estimate;
    Str ", actual COW size is: "; Num actual_cow_size;
    Str ", estimated COW size is ";
    Flt (percent_smaller
           (Int.sub64 (Int.to_uint64 actual_cow_size) estimate)
           actual_cow_size);
    Str "% smaller" ].

(** The aggregate line; both totals are [size_t]. *)
Definition total_line (estimated_total_cow_size actual_total_cow_size : Z)
    : list LogItem :=
  [ Str "Total estimated COW size is: "; Num estimated_total_cow_size;
    Str ", Total actual COW size is: "; Num actual_total_cow_size;
    Str ", estimated COW size is ";
    Flt (percent_smaller
           (Int.sub64 actual_total_cow_size estimated_total_cow_size)
           actual_total_cow_size);
    Str "% smaller" ].

(** The stringified argument of the third [TEST_AND_RETURN_FALSE]. *)
Definition CowDryRun_text : string :=
  "CowDryRun(nullptr, target_img_fd, partition.operations(), " +:+
  "partition.merge_operations(), manifest.block_size(), cow_writer.get(), " +:+
  "partition.new_partition_info().size(), " +:+
  "partition.old_partition_info().size(), false)".

Section Program.

Context {W : Type} {world_ops : World W}.
Variable flags : Flags.

(** Modelled from the spec: the macro [TEST_AND_RETURN_FALSE] is defined in
    common/utils.h, outside [cow_converter.cc].  Per the error handling
    design a failing step logs an error line naming the step and the
    function returns false; otherwise execution continues. *)
Definition TEST_AND_RETURN_FALSE (x_text : string) (x : bool)
    (continue : M W bool) : M W bool :=
  if x then continue
  else LOG ERROR [Str (x_text +:+ " failed.")] ;;; ret false.

(** [a / b] on unsigned operands; dividing by zero is undefined. *)
Definition udiv (a b : Z) : M W Z :=
  if b =? 0 then undefined else ret (a / b).

(** [FileDescriptorPtr target_img_fd]: the last reference to the descriptor
    object goes when [ProcessPartition] returns, and the destructor of
    [EintrSafeFileDescriptor] closes the file if the object is open. *)
Definition with_FileDescriptorPtr (target_img : string) (opened : bool)
    (body : M W bool) : M W bool :=
  ok <- body ;;
  (if opened
   then call (EvFdClose target_img) (fd_Close target_img)
   else ret tt) ;;;
  ret ok.

(** [android::base::unique_fd output_fd]: the descriptor is closed when its
    owner is destroyed, unless it is -1.  The owner is [output_fd], or the
    writer once [CreateCowWriter] has taken the descriptor; both are gone
    when [ProcessPartition] returns. *)
Definition with_unique_fd (output_fd : Z) (body : M W bool) : M W bool :=
  ok <- body ;;
  (if output_fd =? -1
   then ret tt
   else call (EvClose output_fd) (sys_close output_fd)) ;;;
  ret ok.

Definition ProcessPartition (manifest : DeltaArchiveManifest)
    (partition : PartitionUpdate) (image_dir : string) : M W bool :=
  let img_dir := image_dir in
  let target_img := FilePath_Append img_dir (partition_name partition +:+ ".img") in
  let output_cow := FilePath_Append img_dir (partition_name partition +:+ ".cow") in
  opened <- call (EvFdOpen target_img O_RDONLY) (fd_Open target_img O_RDONLY) ;;
  with_FileDescriptorPtr target_img opened (
  if negb opened then
    PLOG ERROR [Str "Failed to open "; Str target_img] ;;; ret false
  else
  output_fd <- call (EvOpen output_cow (Z.lor O_RDWR O_CREAT) (Some mode_0744))
                    (sys_open output_cow (Z.lor O_RDWR O_CREAT) (Some mode_0744)) ;;
  with_unique_fd output_fd (
  if output_fd <? 0 then
    PLOG ERROR [Str "Failed to open "; Str output_cow] ;;; ret false
  else
  let dap := dynamic_partition_metadata manifest in
  blocks <- udiv (size (new_partition_info partition)) (block_size manifest) ;;
  let options :=
    {| opt_block_size := Int.to_uint32 (block_size manifest);
       opt_compression := vabc_compression_param dap;
       opt_batch_write := true;
       opt_op_count_max := Int.to_uint32 blocks |} in
  let options :=
    if negb (String.eqb (FLAGS_vabc_compression_param flags) "")
    then set_compression options (FLAGS_vabc_compression_param flags)
    else options in
  let cow_version := cow_version dap in
  cow_version <-
    (if 0 <? FLAGS_cow_version flags then
       let cow_version := Int.to_uint32 (FLAGS_cow_version flags) in
       LOG INFO [Str "Using user specified COW version "; Num cow_version] ;;;
       ret cow_version
     else ret cow_version) ;;
  cow_writer <- call (EvCreateCowWriter cow_version options output_fd)
                     (CreateCowWriter cow_version options output_fd) ;;
  match cow_writer with
  | None => TEST_AND_RETURN_FALSE "cow_writer" false (ret true)
  | Some writer =>
  TEST_AND_RETURN_FALSE "cow_writer" true (
  dry <- call (EvCowDryRun target_img (operations partition)
                 (merge_operations partition) (block_size manifest) writer
                 (size (new_partition_info partition))
                 (size (old_partition_info partition)) false)
              (CowDryRun target_img (operations partition)
                 (merge_operations partition) (block_size manifest) writer
                 (size (new_partition_info partition))
                 (size (old_partition_info partition)) false) ;;
  TEST_AND_RETURN_FALSE CowDryRun_text dry (
  finalized <- call (EvFinalize writer) (Finalize writer) ;;
  TEST_AND_RETURN_FALSE "cow_writer->Finalize()" finalized (
  ret true)))
  end)).

(** The body of [main]'s [for] loop over [manifest.partitions()].  The
    result is [inl code] when the loop body executes [return code], and
    [inr (estimated_total_cow_size, actual_total_cow_size)] when the loop
    runs to its end. *)
Fixpoint for_each_partition (manifest : DeltaArchiveManifest)
    (names : gset string) (images_dir : string)
    (ps : list PartitionUpdate) (totals : Z * Z) : M W (Z + Z * Z) :=
  match ps with
  | [] => ret (inr totals)
  | partition :: rest =>
      if estimate_cow_size partition =? 0 then
        for_each_partition manifest names images_dir rest totals
      else if negb (bool_decide (names = ∅)) &&
              bool_decide (partition_name partition ∉ names) then
        for_each_partition manifest names images_dir rest totals
      else
        LOG INFO [Str (partition_name partition)] ;;;
        ok <- ProcessPartition manifest partition images_dir ;;
        if negb ok then ret (inl 6)
        else
          let img_dir := images_dir in
          let output_cow :=
            FilePath_Append img_dir (partition_name partition +:+ ".cow") in
          actual_cow_size <- call (EvFileSizePath output_cow)
                                  (FileSize_path output_cow) ;;
          LOG INFO (partition_line (partition_name partition)
                      (estimate_cow_size partition) actual_cow_size) ;;;
          for_each_partition manifest names images_dir rest
            (Int.add64 (fst totals) (estimate_cow_size partition),
             Int.add64 (snd totals) actual_cow_size)
  end.

(** [ScopedFdCloser closer{&payload_fd}]: the descriptor is closed when
    [main] returns. *)
Definition with_ScopedFdCloser (payload_fd : Z) (body : M W Z) : M W Z :=
  code <- body ;;
  (if 0 <=? payload_fd
   then call (EvClose payload_fd) (sys_close payload_fd)
   else ret tt) ;;;
  ret code.

(** [munmapper]: a [unique_ptr] whose deleter unmaps the payload; the
    deleter runs on return unless the pointer is null. *)
Definition with_munmapper (payload payload_size : Z) (body : M W Z) : M W Z :=
  code <- body ;;
  (if payload =? nullptr then ret tt
   else call (EvMunmap payload payload_size) (sys_munmap payload payload_size)) ;;;
  ret code.

(** [argv0] is [argv[0]] and [positional] the arguments left by
    [gflags::ParseCommandLineFlags], so [argc = 1 + length positional]. *)
Definition main (argv0 : string) (positional : list string) : M W Z :=
  let argc := 1 + Z.of_nat (length positional) in
  let tokens := Tokenize (FLAGS_partitions flags) "," in
  (* the std::set [partitions] of the source *)
  let names : gset string := list_to_set tokens in
  if negb (argc =? 3) then
    emit (EvPrintf usage_format argv0) ;;;
    ret (-1)
  else
  let payload_path := nth 0 positional "" in
  let images_dir := nth 1 positional "" in
  payload_fd <- call (EvOpen payload_path O_RDONLY None)
                     (sys_open payload_path O_RDONLY None) ;;
  if payload_fd <? 0 then
    PLOG ERROR [Str "Failed to open payload file:"] ;;; ret 1
  else
  with_ScopedFdCloser payload_fd (
  payload_size <- call (EvFileSizeFd payload_fd) (FileSize_fd payload_fd) ;;
  if payload_size <=? 0 then
    PLOG ERROR
      [Str "Couldn't determine size of payload file, or payload file is empty"] ;;;
    ret 2
  else
  payload <- call (EvMmap payload_size PROT_READ MAP_PRIVATE payload_fd 0)
                  (sys_mmap payload_size PROT_READ MAP_PRIVATE payload_fd 0) ;;
  with_munmapper payload payload_size (
  if payload =? nullptr then
    PLOG ERROR [Str "Failed to mmap() payload file"] ;;; ret 3
  else
  parsed <- call_partial (EvParsePayloadHeader payload payload_size)
                         (ParsePayloadHeader payload payload_size) ;;
  if negb (MetadataParseResult_eqb parsed kSuccess) then
    LOG ERROR [Str "Payload header parse failed!"] ;;; ret 4
  else
  got <- call_partial (EvGetManifest payload payload_size)
                      (GetManifest payload payload_size) ;;
  match got with
  | None => LOG ERROR [Str "Failed to parse manifest!"] ;;; ret 5
  | Some manifest =>
      looped <- for_each_partition manifest names images_dir
                  (partitions manifest) (0, 0) ;;
      match looped with
      | inl code => ret code
      | inr (estimated_total_cow_size, actual_total_cow_size) =>
          LOG INFO (total_line estimated_total_cow_size actual_total_cow_size) ;;;
          ret 0
      end
  end)).

End Program.

(** ** A small executable world

    A file system with sizes only, a descriptor table, and switches for the
    failures of the collaborators.  It is used to run the program on
    concrete inputs. *)

Module Sim.

Record machine := mkMachine {
  files : list (string * Z);            (* path, size in bytes *)
  fds : list (Z * string);              (* open descriptors *)
  next_fd : Z;
  mapping : option (Z * Z);             (* address and length of the payload mapping *)
  mmap_fails : bool;
  header_ok : bool;
  payload_manifest : option DeltaArchiveManifest;
  supported_versions : list Z;
  dry_run_fails : list string;          (* target images the interpreter rejects *)
  finalize_fails : bool;
  produced : list (string * Z)          (* size of each COW file once finalized *)
}.

Definition lookup_path {A} (path : string) (l : list (string * A)) : option A :=
  snd <$> List.find (fun e => String.eqb (fst e) path) l.

Definition lookup_fd (fd : Z) (l : list (Z * string)) : option string :=
  snd <$> List.find (fun e => fst e =? fd) l.

Definition set_size (path : string) (n : Z) (l : list (string * Z))
    : list (string * Z) :=
  (path, n) :: List.filter (fun e => negb (String.eqb (fst e) path)) l.

Definition with_files (w : machine) (fs : list (string * Z)) : machine :=
  mkMachine fs (fds w) (next_fd w) (mapping w) (mmap_fails w) (header_ok w)
    (payload_manifest w) (supported_versions w) (dry_run_fails w)
    (finalize_fails w) (produced w).

Definition with_fds (w : machine) (l : list (Z * string)) (n : Z) : machine :=
  mkMachine (files w) l n (mapping w) (mmap_fails w) (header_ok w)
    (payload_manifest w) (supported_versions w) (dry_run_fails w)
    (finalize_fails w) (produced w).

Definition with_mapping (w : machine) (m : option (Z * Z)) : machine :=
  mkMachine (files w) (fds w) (next_fd w) m (mmap_fails w) (header_ok w)
    (payload_manifest w) (supported_versions w) (dry_run_fails w)
    (finalize_fails w) (produced w).

Definition join (dir component : string) : string :=
  dir +:+ "/" +:+ component.

Definition open (path : string) (flags : Z) (mode : option Z) (w : machine)
    : Z * machine :=
  match lookup_path path (files w) with
  | Some _ =>
      (next_fd w, with_fds w ((next_fd w, path) :: fds w) (next_fd w + 1))
  | None =>
      if Z.testbit flags 6 (* O_CREAT *) then
        (next_fd w,
         with_fds (with_files w (set_size path 0 (files w)))
           ((next_fd w, path) :: fds w) (next_fd w + 1))
      else (-1, w)
  end.

Definition close (fd : Z) (w : machine) : unit * machine :=
  (tt, with_fds w (List.filter (fun e => negb (fst e =? fd)) (fds w)) (next_fd w)).

Definition mapped_at : Z := 2 ^ 46.

Definition mmap (len prot flags fd off : Z) (w : machine) : Z * machine :=
  if mmap_fails w then (MAP_FAILED, w)
  else (mapped_at, with_mapping w (Some (mapped_at, len))).

Definition munmap (addr len : Z) (w : machine) : unit * machine :=
  match mapping w with
  | Some (a, _) => if a =? addr then (tt, with_mapping w None) else (tt, w)
  | None => (tt, w)
  end.

Definition file_size_path (path : string) (w : machine) : Z * machine :=
  (default (-1) (lookup_path path (files w)), w).

Definition file_size_fd (fd : Z) (w : machine) : Z * machine :=
  match lookup_fd fd (fds w) with
  | Some path => file_size_path path w
  | None => (-1, w)
  end.

(** [EintrSafeFileDescriptor::Open] takes a descriptor when the file
    exists; [Close] gives it back. *)
Definition fd_open (path : string) (flags : Z) (w : machine) : bool * machine :=
  match lookup_path path (files w) with
  | Some _ =>
      (true, with_fds w ((next_fd w, path) :: fds w) (next_fd w + 1))
  | None => (false, w)
  end.

Definition fd_close (path : string) (w : machine) : unit * machine :=
  (tt,
   with_fds w (List.filter (fun e => negb (String.eqb (snd e) path)) (fds w))
     (next_fd w)).

(** reading through a pointer that is not the mapping faults *)
Definition readable (payload : Z) (w : machine) : bool :=
  match mapping w with
  | Some (a, _) => a =? payload
  | None => false
  end.

Definition parse_header (payload payload_size : Z) (w : machine)
    : option (MetadataParseResult * machine) :=
  if readable payload w
  then Some (if header_ok w then kSuccess else kError, w)
  else None.

Definition get_manifest (payload payload_size : Z) (w : machine)
    : option (option DeltaArchiveManifest * machine) :=
  if readable payload w then Some (payload_manifest w, w) else None.

Definition create_writer (version : Z) (options : CowOptions) (fd : Z)
    (w : machine) : option Z * machine :=
  if existsb (Z.eqb version) (supported_versions w) then (Some fd, w)
  else (None, w).

Definition dry_run (target_img : string) (ops : list InstallOperation)
    (merge_ops : list CowMergeOperation) (blk writer new_size old_size : Z)
    (xor_enabled : bool) (w : machine) : bool * machine :=
  (negb (existsb (String.eqb target_img) (dry_run_fails w)), w).

Definition finalize (writer : Z) (w : machine) : bool * machine :=
  if finalize_fails w then (false, w)
  else match lookup_fd writer (fds w) with
       | Some path =>
           (true,
            with_files w
              (set_size path (default 0 (lookup_path path (produced w))) (files w)))
       | None => (false, w)
       end.

#[export] Instance ops : World machine := {
  FilePath_Append := join;
  sys_open := open;
  sys_close := close;
  sys_mmap := mmap;
  sys_munmap := munmap;
  FileSize_fd := file_size_fd;
  FileSize_path := file_size_path;
  fd_Open := fd_open;
  fd_Close := fd_close;
  ParsePayloadHeader := parse_header;
  GetManifest := get_manifest;
  CreateCowWriter := create_writer;
  CowDryRun := dry_run;
  Finalize := finalize
}.

(** Ways of breaking a machine. *)
Definition break_mmap (w : machine) : machine :=
  mkMachine (files w) (fds w) (next_fd w) (mapping w) true (header_ok w)
    (payload_manifest w) (supported_versions w) (dry_run_fails w)
    (finalize_fails w) (produced w).

Definition break_header (w : machine) : machine :=
  mkMachine (files w) (fds w) (next_fd w) (mapping w) (mmap_fails w) false
    (payload_manifest w) (supported_versions w) (dry_run_fails w)
    (finalize_fails w) (produced w).

Definition break_manifest (w : machine) : machine :=
  mkMachine (files w) (fds w) (next_fd w) (mapping w) (mmap_fails w)
    (header_ok w) None (supported_versions w) (dry_run_fails w)
    (finalize_fails w) (produced w).

Definition reject_dry_run (target_img : string) (w : machine) : machine :=
  mkMachine (files w) (fds w) (next_fd w) (mapping w) (mmap_fails w)
    (header_ok w) (payload_manifest w) (supported_versions w)
    (target_img :: dry_run_fails w) (finalize_fails w) (produced w).

Definition remove_file (path : string) (w : machine) : machine :=
  with_files w (List.filter (fun e => negb (String.eqb (fst e) path)) (files w)).

Definition resize (path : string) (n : Z) (w : machine) : machine :=
  with_files w (set_size path n (files w)).

Definition partition (name : string) (estimate new_size : Z) : PartitionUpdate :=
  {| partition_name := name;
     estimate_cow_size := estimate;
     new_partition_info := {| size := new_size |};
     old_partition_info := {| size := new_size |};
     operations :=
       [ {| op_type := ZERO; src_extents := [];
            dst_extents := [ {| start_block := 0; num_blocks := new_size / 4096 |} ] |} ];
     merge_operations := [] |}.

Definition manifest_of (ps : list PartitionUpdate) : DeltaArchiveManifest :=
  {| block_size := 4096;
     partitions := ps;
     dynamic_partition_metadata :=
       {| vabc_compression_param := "lz4"; cow_version := 2 |} |}.

(** A healthy machine: payload.bin of 1000 bytes holding [m], the target
    images [imgs] in directory out, every COW file coming out with the size
    listed in [sizes]. *)
Definition healthy (m : DeltaArchiveManifest) (imgs : list string)
    (sizes : list (string * Z)) : machine :=
  {| files := ("payload.bin", 1000) ::
              List.map (fun n => (join "out" (n +:+ ".img"), 8192)) imgs;
     fds := [];
     next_fd := 3;
     mapping := None;
     mmap_fails := false;
     header_ok := true;
     payload_manifest := Some m;
     supported_versions := [2; 3];
     dry_run_fails := [];
     finalize_fails := false;
     produced := List.map (fun e => (join "out" (fst e +:+ ".cow"), snd e)) sizes |}.

Definition no_flags : Flags :=
  {| FLAGS_partitions := ""; FLAGS_cow_version := 0;
     FLAGS_vabc_compression_param := "" |}.

Definition start (w : machine) : State machine := mkState w [].

Definition run (flags : Flags) (w : machine) : Outcome machine Z :=
  main flags "cow_converter" ["payload.bin"; "out"] (start w).

End Sim.

(** ** Vocabulary of the specification *)

Definition state_of {W A} (o : Outcome W A) : State W :=
  match o with Done _ s | Undefined s => s end.

Definition result_of {W A} (o : Outcome W A) : option A :=
  match o with Done a _ => Some a | Undefined _ => None end.

(** The state after logging one line. *)
Definition logged {W} (s : State W) (sev : LogSeverity) (line : list LogItem)
    : State W :=
  record s (EvLog sev false line) (world s).

(** A partition with a non-zero estimate. *)
Definition candidate (p : PartitionUpdate) : bool :=
  negb (estimate_cow_size p =? 0).

(** A partition that passes the [--partitions] filter. *)
Definition listed (names : gset string) (p : PartitionUpdate) : bool :=
  bool_decide (names = ∅) || bool_decide (partition_name p ∈ names).

Definition selected (names : gset string) (p : PartitionUpdate) : bool :=
  candidate p && listed names p.

(** The set built from [--partitions]. *)
Definition names_of (flags : Flags) : gset string :=
  list_to_set (Tokenize (FLAGS_partitions flags) ",").

(** The line [LOG(INFO) << partition.partition_name()] that precedes each
    call of [ProcessPartition]. *)
Definition name_line (e : event) : option string :=
  match e with
  | EvLog INFO false [Str name] => Some name
  | _ => None
  end.

(** The names of the partitions whose processing was started, in order. *)
Definition started (tr : list event) : list string := omap name_line tr.

(** The target images opened, in order. *)
Definition image_opened (e : event) : option string :=
  match e with
  | EvFdOpen path _ => Some path
  | _ => None
  end.

Definition opened_images (tr : list event) : list string :=
  omap image_opened tr.

Definition is_total_line (e : event) : bool :=
  match e with
  | EvLog INFO false [Str a; Num _; Str _; Num _; Str _; Flt _; Str _] =>
      String.eqb a "Total estimated COW size is: "
  | _ => false
  end.

Definition total_lines (tr : list event) : nat :=
  length (List.filter is_total_line tr).

(** The percentage a log line carries. *)
Definition line_percent (line : list LogItem) : option spec_float :=
  match List.filter (fun i => match i with Flt _ => true | _ => false end) line with
  | [Flt x] => Some x
  | _ => None
  end.

(** The events of the two scoped releases of [ProcessPartition]: the output
    descriptor unless it is -1, then the image. *)
Definition releases (target_img : string) (output_fd : Z) : list event :=
  (if output_fd =? -1 then [] else [EvClose output_fd]) ++
  [EvFdClose target_img].

Section Vocabulary.

Context {W : Type} {world_ops : World W}.
Variable flags : Flags.

(** The front end ran through: payload opened, sized, mapped, header and
    manifest parsed.  The last index is the state in which the loop over
    the partitions starts. *)
Inductive FrontEnd (positional : list string) (s : State W)
    (payload_fd payload_size payload : Z) (manifest : DeltaArchiveManifest)
    : State W -> Prop :=
| FrontEnd_intro w1 w2 w3 w4 w5 :
    length positional = 2%nat ->
    sys_open (nth 0 positional "") O_RDONLY None (world s) = (payload_fd, w1) ->
    0 <= payload_fd ->
    FileSize_fd payload_fd w1 = (payload_size, w2) ->
    0 < payload_size ->
    sys_mmap payload_size PROT_READ MAP_PRIVATE payload_fd 0 w2 = (payload, w3) ->
    payload <> nullptr ->
    ParsePayloadHeader payload payload_size w3 = Some (kSuccess, w4) ->
    GetManifest payload payload_size w4 = Some (Some manifest, w5) ->
    FrontEnd positional s payload_fd payload_size payload manifest
      (mkState w5
         (trace s ++
          [ EvOpen (nth 0 positional "") O_RDONLY None;
            EvFileSizeFd payload_fd;
            EvMmap payload_size PROT_READ MAP_PRIVATE payload_fd 0;
            EvParsePayloadHeader payload payload_size;
            EvGetManifest payload payload_size ])).

(** What the two scoped objects do when [main] returns: unmap the payload,
    then close its descriptor. *)
Definition unmapped (payload payload_size : Z) (s : State W) : State W :=
  record s (EvMunmap payload payload_size)
    (snd (sys_munmap payload payload_size (world s))).

Definition closed (payload_fd : Z) (s : State W) : State W :=
  record s (EvClose payload_fd) (snd (sys_close payload_fd (world s))).

Definition at_exit (payload_fd payload_size payload : Z) (s : State W)
    : State W :=
  closed payload_fd (unmapped payload payload_size s).

(** What the two scoped objects of [ProcessPartition] do when it returns:
    the output descriptor is closed unless it is -1, then the image. *)
Definition output_released (output_fd : Z) (s : State W) : State W :=
  if output_fd =? -1 then s else closed output_fd s.

Definition image_released (target_img : string) (s : State W) : State W :=
  record s (EvFdClose target_img) (snd (fd_Close target_img (world s))).

Definition at_return (target_img : string) (output_fd : Z) (s : State W)
    : State W :=
  image_released target_img (output_released output_fd s).

Variable manifest : DeltaArchiveManifest.
Variable names : gset string.
Variable images_dir : string.

(** One successful round of the loop for a selected partition: its name is
    logged, [ProcessPartition] returns true, the output is measured and the
    statistics line is logged. *)
Definition round_ok (p : PartitionUpdate) (s : State W)
    (actual_cow_size : Z) (s' : State W) : Prop :=
  exists s1 w2,
    ProcessPartition flags manifest p images_dir
      (logged s INFO [Str (partition_name p)]) = Done true s1 /\
    FileSize_path (FilePath_Append images_dir (partition_name p +:+ ".cow"))
      (world s1) = (actual_cow_size, w2) /\
    s' = logged
           (record s1
              (EvFileSizePath
                 (FilePath_Append images_dir (partition_name p +:+ ".cow"))) w2)
           INFO
           (partition_line (partition_name p) (estimate_cow_size p)
              actual_cow_size).

(** A round that fails: [ProcessPartition] returns false. *)
Definition round_fails (p : PartitionUpdate) (s s' : State W) : Prop :=
  ProcessPartition flags manifest p images_dir
    (logged s INFO [Str (partition_name p)]) = Done false s'.

(** Every selected partition of the list is processed successfully; the
    indices are the totals and the state before and after. *)
Inductive processes_all
    : list PartitionUpdate -> Z * Z -> State W -> Z * Z -> State W -> Prop :=
| processes_nil totals s :
    processes_all [] totals s totals s
| processes_skip p ps totals s totals' s' :
    selected names p = false ->
    processes_all ps totals s totals' s' ->
    processes_all (p :: ps) totals s totals' s'
| processes_round p ps totals s actual_cow_size s1 totals' s' :
    selected names p = true ->
    round_ok p s actual_cow_size s1 ->
    processes_all ps
      (Int.add64 (fst totals) (estimate_cow_size p),
       Int.add64 (snd totals) actual_cow_size) s1 totals' s' ->
    processes_all (p :: ps) totals s totals' s'.

(** Some selected partition fails, all selected partitions before it having
    been processed successfully. *)
Definition first_failure (ps : list PartitionUpdate) (totals : Z * Z)
    (s s' : State W) : Prop :=
  exists pre p post totals1 s1,
    ps = (pre ++ p :: post)%list /\
    processes_all pre totals s totals1 s1 /\
    selected names p = true /\
    round_fails p s1 s'.

End Vocabulary.

Arguments at_return {W world_ops} target_img output_fd s : simpl never.

(** An event that is neither the line announcing a partition nor the
    aggregate line. *)
Definition quiet (e : event) : Prop :=
  name_line e = None /\ is_total_line e = false.

Section Causes.

Context {W : Type} {world_ops : World W}.
Variable flags : Flags.
Variable manifest : DeltaArchiveManifest.
Variable partition : PartitionUpdate.
Variable image_dir : string.

Definition target_img_of : string :=
  FilePath_Append image_dir (partition_name partition +:+ ".img").

Definition output_cow_of : string :=
  FilePath_Append image_dir (partition_name partition +:+ ".cow").

(** The version and the options [ProcessPartition] hands to
    [CreateCowWriter]. *)
Definition version_of : Z :=
  if 0 <? FLAGS_cow_version flags
  then Int.to_uint32 (FLAGS_cow_version flags)
  else cow_version (dynamic_partition_metadata manifest).

Definition options_of : CowOptions :=
  {| opt_block_size := Int.to_uint32 (block_size manifest);
     opt_compression :=
       if String.eqb (FLAGS_vabc_compression_param flags) ""
       then vabc_compression_param (dynamic_partition_metadata manifest)
       else FLAGS_vabc_compression_param flags;
     opt_batch_write := true;
     opt_op_count_max :=
       Int.to_uint32 (size (new_partition_info partition) / block_size manifest) |}.

(** The five ways in which [ProcessPartition] returns false, each with the
    steps that succeeded before it. *)
Inductive fails_because (w : W) : Prop :=
| target_image_missing w1 :
    fd_Open target_img_of O_RDONLY w = (false, w1) ->
    fails_because w
| output_open_failure w1 fd w2 :
    fd_Open target_img_of O_RDONLY w = (true, w1) ->
    sys_open output_cow_of (Z.lor O_RDWR O_CREAT) (Some mode_0744) w1 = (fd, w2) ->
    fd < 0 ->
    fails_because w
| writer_construction_failure w1 fd w2 w3 :
    fd_Open target_img_of O_RDONLY w = (true, w1) ->
    sys_open output_cow_of (Z.lor O_RDWR O_CREAT) (Some mode_0744) w1 = (fd, w2) ->
    0 <= fd ->
    block_size manifest <> 0 ->
    CreateCowWriter version_of options_of fd w2 = (None, w3) ->
    fails_because w
| interpreter_failure w1 fd w2 writer w3 w4 :
    fd_Open target_img_of O_RDONLY w = (true, w1) ->
    sys_open output_cow_of (Z.lor O_RDWR O_CREAT) (Some mode_0744) w1 = (fd, w2) ->
    0 <= fd ->
    block_size manifest <> 0 ->
    CreateCowWriter version_of options_of fd w2 = (Some writer, w3) ->
    CowDryRun target_img_of (operations partition) (merge_operations partition)
      (block_size manifest) writer (size (new_partition_info partition))
      (size (old_partition_info partition)) false w3 = (false, w4) ->
    fails_because w
| finalize_failure w1 fd w2 writer w3 w4 w5 :
    fd_Open target_img_of O_RDONLY w = (true, w1) ->
    sys_open output_cow_of (Z.lor O_RDWR O_CREAT) (Some mode_0744) w1 = (fd, w2) ->
    0 <= fd ->
    block_size manifest <> 0 ->
    CreateCowWriter version_of options_of fd w2 = (Some writer, w3) ->
    CowDryRun target_img_of (operations partition) (merge_operations partition)
      (block_size manifest) writer (size (new_partition_info partition))
      (size (old_partition_info partition)) false w3 = (true, w4) ->
    Finalize writer w4 = (false, w5) ->
    fails_because w.

End Causes.

(** ** Concrete runs *)

Module Scenario.

Import Sim.

Definition A : PartitionUpdate := partition "A" 100 8192.
Definition B : PartitionUpdate := partition "B" 0 8192.
Definition C : PartitionUpdate := partition "C" 200 8192.

(** Three partitions, the second with a zero estimate; A.cow comes out at
    150 bytes and C.cow at 250. *)
Definition abc : DeltaArchiveManifest := manifest_of [A; B; C].
Definition world_abc : machine :=
  healthy abc ["A"; "B"; "C"] [("A", 150); ("C", 250)].

(** One partition whose estimate, 200, exceeds the 100 bytes of its COW
    file. *)
Definition sys : PartitionUpdate := partition "sys" 200 8192.
Definition m_sys : DeltaArchiveManifest := manifest_of [sys].
Definition world_sys : machine := healthy m_sys ["sys"] [("sys", 100)].


Definition flags_AC : Flags :=
  {| FLAGS_partitions := "A,C"; FLAGS_cow_version := 0;
     FLAGS_vabc_compression_param := "" |}.

Definition flags_B : Flags :=
  {| FLAGS_partitions := "B"; FLAGS_cow_version := 0;
     FLAGS_vabc_compression_param := "" |}.


Definition flags_Z : Flags :=
  {| FLAGS_partitions := "Z"; FLAGS_cow_version := 0;
     FLAGS_vabc_compression_param := "" |}.

(** [world_abc] with the interpreter rejecting partition C. *)
Definition world_C_rejected : machine :=
  reject_dry_run "out/C.img" world_abc.

(** [world_abc] with the interpreter rejecting partition A. *)
Definition world_A_rejected : machine :=
  reject_dry_run "out/A.img" world_abc.

Definition positional : list string := ["payload.bin"; "out"].

(** The state in which the loop starts when the front end has gone through
    in machine [w]: descriptor 3 is the payload, mapped at [mapped_at]. *)
Definition loop_start (w : machine) : State machine :=
  mkState
    (snd (mmap 1000 PROT_READ MAP_PRIVATE 3 0
            (snd (open "payload.bin" O_RDONLY None w))))
    [ EvOpen "payload.bin" O_RDONLY None;
      EvFileSizeFd 3;
      EvMmap 1000 PROT_READ MAP_PRIVATE 3 0;
      EvParsePayloadHeader mapped_at 1000;
      EvGetManifest mapped_at 1000 ].

End Scenario.

(** ** Vocabulary of the further properties *)

Definition is_error_line (e : event) : bool :=
  match e with
  | EvLog ERROR _ _ => true
  | _ => false
  end.

Definition error_lines (tr : list event) : nat :=
  length (List.filter is_error_line tr).

Definition is_close (e : event) : bool :=
  match e with
  | EvClose _ => true
  | _ => false
  end.

Definition is_munmap (e : event) : bool :=
  match e with
  | EvMunmap _ _ => true
  | _ => false
  end.

Definition closes (tr : list event) : nat :=
  length (List.filter is_close tr).

Definition munmaps (tr : list event) : nat :=
  length (List.filter is_munmap tr).

(** The calls of [open], of [mmap] and of [EintrSafeFileDescriptor::Close]. *)
Definition is_open (e : event) : bool :=
  match e with
  | EvOpen _ _ _ => true
  | _ => false
  end.

Definition is_mmap (e : event) : bool :=
  match e with
  | EvMmap _ _ _ _ _ => true
  | _ => false
  end.

Definition is_fd_close (e : event) : bool :=
  match e with
  | EvFdClose _ => true
  | _ => false
  end.

Definition opens (tr : list event) : nat :=
  length (List.filter is_open tr).

Definition mmaps (tr : list event) : nat :=
  length (List.filter is_mmap tr).

Definition fd_closes (tr : list event) : nat :=
  length (List.filter is_fd_close tr).

(** The estimate and the actual size a per-partition line reports. *)
Definition reported (e : event) : option (Z * Z) :=
  match e with
  | EvLog INFO false
      [Str _; Str _; Num estimate; Str _; Num actual_cow_size; Str _; Flt _; Str _] =>
      Some (estimate, actual_cow_size)
  | _ => None
  end.

(** Adding figures to the two [size_t] totals, one partition at a time. *)
Definition accumulate (totals : Z * Z) (figures : list (Z * Z)) : Z * Z :=
  fold_left
    (fun t f => (Int.add64 (fst t) (fst f), Int.add64 (snd t) (snd f)))
    figures totals.

(** The plain sum of a list of integers. *)
Definition sum_of (l : list Z) : Z := fold_right Z.add 0 l.

(** The version and options of each writer created. *)
Definition writer_created (e : event) : option (Z * CowOptions) :=
  match e with
  | EvCreateCowWriter version options _ => Some (version, options)
  | _ => None
  end.

(** The files created with a mode ([open] with three arguments) and the
    files whose size is taken by path. *)
Definition created (e : event) : option string :=
  match e with
  | EvOpen path _ (Some _) => Some path
  | _ => None
  end.

Definition measured (e : event) : option string :=
  match e with
  | EvFileSizePath path => Some path
  | _ => None
  end.

(** The line logged when the command line gives the COW version. *)
Definition version_log_of (flags : Flags) : list event :=
  if 0 <? FLAGS_cow_version flags
  then [EvLog INFO false
          [Str "Using user specified COW version ";
           Num (Int.to_uint32 (FLAGS_cow_version flags))]]
  else [].

Section Returns.

Context {W : Type} {world_ops : World W}.
Variable flags : Flags.
Variable argv0 : string.

(** The eight ways in which [main] returns: the exit code and the final
    state of each. *)
Inductive main_returns (positional : list string) (s : State W)
    : Z -> State W -> Prop :=
| returns_usage :
    length positional <> 2%nat ->
    main_returns positional s (-1)
      (record s
         (EvPrintf usage_format argv0)
         (world s))
| returns_open_failed fd w1 :
    length positional = 2%nat ->
    sys_open (nth 0 positional "") O_RDONLY None (world s) = (fd, w1) ->
    fd < 0 ->
    main_returns positional s 1
      (mkState w1
         (trace s ++
          [ EvOpen (nth 0 positional "") O_RDONLY None;
            EvLog ERROR true [Str "Failed to open payload file:"] ]))
| returns_size_failed fd w1 payload_size w2 :
    length positional = 2%nat ->
    sys_open (nth 0 positional "") O_RDONLY None (world s) = (fd, w1) ->
    0 <= fd ->
    FileSize_fd fd w1 = (payload_size, w2) ->
    payload_size <= 0 ->
    main_returns positional s 2
      (closed fd
         (mkState w2
            (trace s ++
             [ EvOpen (nth 0 positional "") O_RDONLY None;
               EvFileSizeFd fd;
               EvLog ERROR true
                 [Str "Couldn't determine size of payload file, or payload file is empty"] ])))
| returns_mmap_null fd w1 payload_size w2 w3 :
    length positional = 2%nat ->
    sys_open (nth 0 positional "") O_RDONLY None (world s) = (fd, w1) ->
    0 <= fd ->
    FileSize_fd fd w1 = (payload_size, w2) ->
    0 < payload_size ->
    sys_mmap payload_size PROT_READ MAP_PRIVATE fd 0 w2 = (nullptr, w3) ->
    main_returns positional s 3
      (closed fd
         (mkState w3
            (trace s ++
             [ EvOpen (nth 0 positional "") O_RDONLY None;
               EvFileSizeFd fd;
               EvMmap payload_size PROT_READ MAP_PRIVATE fd 0;
               EvLog ERROR true [Str "Failed to mmap() payload file"] ])))
| returns_header_failed fd w1 payload_size w2 payload w3 parsed w4 :
    length positional = 2%nat ->
    sys_open (nth 0 positional "") O_RDONLY None (world s) = (fd, w1) ->
    0 <= fd ->
    FileSize_fd fd w1 = (payload_size, w2) ->
    0 < payload_size ->
    sys_mmap payload_size PROT_READ MAP_PRIVATE fd 0 w2 = (payload, w3) ->
    payload <> nullptr ->
    ParsePayloadHeader payload payload_size w3 = Some (parsed, w4) ->
    parsed <> kSuccess ->
    main_returns positional s 4
      (at_exit fd payload_size payload
         (mkState w4
            (trace s ++
             [ EvOpen (nth 0 positional "") O_RDONLY None;
               EvFileSizeFd fd;
               EvMmap payload_size PROT_READ MAP_PRIVATE fd 0;
               EvParsePayloadHeader payload payload_size;
               EvLog ERROR false [Str "Payload header parse failed!"] ])))
| returns_manifest_failed fd w1 payload_size w2 payload w3 w4 w5 :
    length positional = 2%nat ->
    sys_open (nth 0 positional "") O_RDONLY None (world s) = (fd, w1) ->
    0 <= fd ->
    FileSize_fd fd w1 = (payload_size, w2) ->
    0 < payload_size ->
    sys_mmap payload_size PROT_READ MAP_PRIVATE fd 0 w2 = (payload, w3) ->
    payload <> nullptr ->
    ParsePayloadHeader payload payload_size w3 = Some (kSuccess, w4) ->
    GetManifest payload payload_size w4 = Some (None, w5) ->
    main_returns positional s 5
      (at_exit fd payload_size payload
         (mkState w5
            (trace s ++
             [ EvOpen (nth 0 positional "") O_RDONLY None;
               EvFileSizeFd fd;
               EvMmap payload_size PROT_READ MAP_PRIVATE fd 0;
               EvParsePayloadHeader payload payload_size;
               EvGetManifest payload payload_size;
               EvLog ERROR false [Str "Failed to parse manifest!"] ])))
| returns_partition_failed fd payload_size payload m s5 s6 :
    FrontEnd positional s fd payload_size payload m s5 ->
    first_failure flags m (names_of flags) (nth 1 positional "")
      (partitions m) (0, 0) s5 s6 ->
    main_returns positional s 6 (at_exit fd payload_size payload s6)
| returns_success fd payload_size payload m s5 totals s6 :
    FrontEnd positional s fd payload_size payload m s5 ->
    processes_all flags m (names_of flags) (nth 1 positional "")
      (partitions m) (0, 0) s5 totals s6 ->
    main_returns positional s 0
      (at_exit fd payload_size payload
         (logged s6 INFO (total_line (fst totals) (snd totals)))).

End Returns.

(** ** Further concrete inputs *)

Module Edge.

Import Sim.

(** A manifest whose block size is 0. *)
Definition zero_blocks : DeltaArchiveManifest :=
  {| block_size := 0;
     partitions := [Scenario.A];
     dynamic_partition_metadata :=
       {| vabc_compression_param := "lz4"; cow_version := 2 |} |}.

Definition world_zero_blocks : machine :=
  healthy zero_blocks ["A"] [("A", 150)].

Definition flags_of (csv : string) : Flags :=
  {| FLAGS_partitions := csv; FLAGS_cow_version := 0;
     FLAGS_vabc_compression_param := "" |}.

End Edge.

(** * Part II: lemmas and theorems *)

(** ** The pure helpers on small inputs *)

Example Tokenize_two_names : Tokenize "A,C" "," = ["A"; "C"].
Proof. reflexivity. Qed.

Example Tokenize_drops_empty_tokens : Tokenize ",A,,C," "," = ["A"; "C"].
Proof. reflexivity. Qed.

Example Tokenize_nothing : Tokenize "" "," = [].
Proof. reflexivity. Qed.

(** (150 - 100) * 100.0f / 150 is 33.333332 in single precision. *)
Example percent_of_a_third :
  percent_smaller 50 150 = S754_finite false 8738133 (-18).
Proof. reflexivity. Qed.

(** An empty run divides zero by zero. *)
Example percent_of_nothing : percent_smaller 0 0 = S754_nan.
Proof. reflexivity. Qed.

(** ** The monad *)

Section MonadFacts.

Context {W : Type}.

Lemma LOG_eq sev line (s : State W) :
  LOG sev line s = Done tt (logged s sev line).
Proof. reflexivity. Qed.

End MonadFacts.

(** ** The loop over the partitions *)

Section Loop.

Context {W : Type} {world_ops : World W}.
Variable flags : Flags.
Variable manifest : DeltaArchiveManifest.
Variable names : gset string.
Variable images_dir : string.

Local Abbreviation loop := (for_each_partition flags manifest names images_dir).
Local Abbreviation output_cow p :=
  (FilePath_Append images_dir (partition_name p +:+ ".cow")).

(** The two [continue] tests of the source, taken together, are the
    negation of [selected]. *)
Lemma filter_test names' p :
  negb (bool_decide (names' = ∅)) && bool_decide (partition_name p ∉ names')
  = negb (listed names' p).
Proof.
  unfold listed. rewrite bool_decide_not, negb_orb. reflexivity.
Qed.

Lemma loop_skip p ps totals (s : State W) :
  selected names p = false ->
  loop (p :: ps) totals s = loop ps totals s.
Proof.
  unfold selected, candidate. intros H. simpl.
  destruct (estimate_cow_size p =? 0); [reflexivity|].
  simpl in H. rewrite filter_test, H. reflexivity.
Qed.

(** One round for a selected partition, case by case on what
    [ProcessPartition] does. *)
Lemma loop_round p ps totals (s : State W) :
  selected names p = true ->
  loop (p :: ps) totals s =
  match ProcessPartition flags manifest p images_dir
          (logged s INFO [Str (partition_name p)]) with
  | Done true s1 =>
      let (actual_cow_size, w2) := FileSize_path (output_cow p) (world s1) in
      loop ps
        (Int.add64 (fst totals) (estimate_cow_size p),
         Int.add64 (snd totals) actual_cow_size)
        (logged (record s1 (EvFileSizePath (output_cow p)) w2) INFO
           (partition_line (partition_name p) (estimate_cow_size p)
              actual_cow_size))
  | Done false s1 => Done (inl 6) s1
  | Undefined s1 => Undefined s1
  end.
Proof.
  unfold selected, candidate. intros H. simpl.
  destruct (estimate_cow_size p =? 0); [discriminate|].
  simpl in H. rewrite filter_test, H. simpl.
  unfold bind at 1. rewrite LOG_eq. unfold bind at 1.
  destruct (ProcessPartition _ _ _ _ _) as [[|] s1|s1]; simpl; try reflexivity.
  unfold bind at 1, call.
  destruct (FileSize_path _ _) as [actual w2]. reflexivity.
Qed.

(** The loop runs to its end exactly when every selected partition is
    processed successfully. *)
Lemma loop_completes ps :
  forall totals (s : State W) totals' s',
    loop ps totals s = Done (inr totals') s' <->
    processes_all flags manifest names images_dir ps totals s totals' s'.
Proof.
  induction ps as [|p ps IH]; intros totals s totals' s'.
  - simpl. unfold ret. split.
    + intros [= <- <-]. constructor.
    + inversion 1; subst. reflexivity.
  - destruct (selected names p) eqn:Hsel.
    + rewrite (loop_round _ _ _ _ Hsel). split.
      * destruct (ProcessPartition _ _ _ _ _) as [[|] s1|s1] eqn:Hpp;
          try discriminate.
        destruct (FileSize_path _ _) as [actual w2] eqn:Hsz.
        intros Hloop. apply IH in Hloop.
        eapply processes_round; [exact Hsel| |exact Hloop].
        exists s1, w2. auto.
      * inversion 1; subst; [congruence|].
        match goal with
        | H : round_ok _ _ _ _ _ _ _ |- _ =>
            destruct H as (s0 & w2 & Hpp & Hsz & ->)
        end.
        rewrite Hpp, Hsz. apply IH. assumption.
    + rewrite (loop_skip _ _ _ _ Hsel), IH. split.
      * intros H. now apply processes_skip.
      * inversion 1; subst; [assumption|congruence].
Qed.

(** The loop executes [return 6] exactly when some selected partition
    fails; no other code is returned from inside the loop. *)
Lemma loop_returns ps :
  forall totals (s : State W) code s',
    loop ps totals s = Done (inl code) s' <->
    code = 6 /\
    first_failure flags manifest names images_dir ps totals s s'.
Proof.
  induction ps as [|p ps IH]; intros totals s code s'.
  - simpl. unfold ret. split; [discriminate|].
    intros (_ & pre & q & post & t1 & s1 & Hps & _).
    destruct pre; discriminate.
  - destruct (selected names p) eqn:Hsel.
    + rewrite (loop_round _ _ _ _ Hsel). split.
      * destruct (ProcessPartition _ _ _ _ _) as [[|] s1|s1] eqn:Hpp;
          try discriminate.
        -- destruct (FileSize_path _ _) as [actual w2] eqn:Hsz.
           intros Hloop. apply IH in Hloop.
           destruct Hloop as (-> & pre & q & post & t1 & s2 & -> & Hall & Hq & Hf).
           split; [reflexivity|].
           exists (p :: pre), q, post, t1, s2. repeat split; auto.
           eapply processes_round; [exact Hsel| |exact Hall].
           exists s1, w2. auto.
        -- intros [= <- <-]. split; [reflexivity|].
           exists [], p, ps, totals, s. repeat split; auto. constructor.
      * intros (-> & pre & q & post & t1 & s2 & Hps & Hall & Hq & Hf).
        destruct pre as [|p' pre]; simpl in Hps; injection Hps as <- ->.
        -- inversion Hall; subst. unfold round_fails in Hf. now rewrite Hf.
        -- inversion Hall; subst; [congruence|].
           match goal with
           | H : round_ok _ _ _ _ _ _ _ |- _ =>
               destruct H as (s0 & w2 & Hpp & Hsz & ->)
           end.
           rewrite Hpp, Hsz. apply IH. split; [reflexivity|].
           exists pre, q, post, t1, s2. auto.
    + rewrite (loop_skip _ _ _ _ Hsel), IH. split.
      * intros (-> & pre & q & post & t1 & s2 & -> & Hall & Hq & Hf).
        split; [reflexivity|].
        exists (p :: pre), q, post, t1, s2. repeat split; auto.
        now apply processes_skip.
      * intros (-> & pre & q & post & t1 & s2 & Hps & Hall & Hq & Hf).
        split; [reflexivity|].
        destruct pre as [|p' pre]; simpl in Hps; injection Hps as <- ->.
        -- congruence.
        -- inversion Hall; subst; [|congruence].
           exists pre, q, post, t1, s2. auto.
Qed.

End Loop.

(** ** [ProcessPartition] *)

Section ProcessPartitionPaths.

Context {W : Type} {world_ops : World W}.
Variable flags : Flags.

Local Abbreviation target_img dir p :=
  (FilePath_Append dir (partition_name p +:+ ".img")).
Local Abbreviation output_cow dir p :=
  (FilePath_Append dir (partition_name p +:+ ".cow")).



(** The function, one call at a time: the outcome of each path and the
    state it ends in. *)
Lemma ProcessPartition_eq m p dir (s : State W) :
  ProcessPartition flags m p dir s =
  let img := target_img dir p in
  let cow := output_cow dir p in
  let (opened, w1) := fd_Open img O_RDONLY (world s) in
  let s1 := record s (EvFdOpen img O_RDONLY) w1 in
  if opened then
    let (fd, w2) := sys_open cow (Z.lor O_RDWR O_CREAT) (Some mode_0744) w1 in
    let s2 := record s1 (EvOpen cow (Z.lor O_RDWR O_CREAT) (Some mode_0744)) w2 in
    if fd <? 0 then
      Done false
        (at_return img fd
           (record s2 (EvLog ERROR true [Str "Failed to open "; Str cow]) w2))
    else if block_size m =? 0 then Undefined s2
    else
      let version := version_of flags m in
      let options := options_of flags m p in
      let s3 := mkState w2 (trace s2 ++ version_log_of flags) in
      let (cow_writer, w3) := CreateCowWriter version options fd w2 in
      let s4 := record s3 (EvCreateCowWriter version options fd) w3 in
      match cow_writer with
      | None =>
          Done false
            (at_return img fd (logged s4 ERROR [Str "cow_writer failed."]))
      | Some writer =>
          let (dry, w4) :=
            CowDryRun img (operations p) (merge_operations p) (block_size m)
              writer (size (new_partition_info p))
              (size (old_partition_info p)) false w3 in
          let s5 :=
            record s4
              (EvCowDryRun img (operations p) (merge_operations p)
                 (block_size m) writer (size (new_partition_info p))
                 (size (old_partition_info p)) false) w4 in
          if dry then
            let (finalized, w5) := Finalize writer w4 in
            let s6 := record s5 (EvFinalize writer) w5 in
            if finalized then Done true (at_return img fd s6)
            else
              Done false
                (at_return img fd
                   (logged s6 ERROR [Str "cow_writer->Finalize() failed."]))
          else
            Done false
              (at_return img fd
                 (logged s5 ERROR [Str (CowDryRun_text +:+ " failed.")]))
      end
  else
    Done false
      (record s1 (EvLog ERROR true [Str "Failed to open "; Str img]) w1).
Proof.
  cbv zeta.
  unfold at_return, image_released, output_released, closed, logged,
    version_of, options_of, version_log_of.
  unfold ProcessPartition, with_FileDescriptorPtr, with_unique_fd,
    TEST_AND_RETURN_FALSE, udiv, LOG, PLOG, emit, undefined, bind, call, ret.
  simpl. unfold set_compression.
  destruct (fd_Open _ _ _) as [[|] w1]; simpl; [|reflexivity].
  destruct (sys_open _ _ _ _) as [fd w2]; simpl.
  destruct (fd <? 0); simpl.
  { destruct (fd =? -1); simpl;
      [|destruct (sys_close _ _) as [[] ?]; simpl];
      destruct (fd_Close _ _) as [[] ?]; reflexivity. }
  destruct (block_size m =? 0); simpl; [reflexivity|].
  destruct (0 <? FLAGS_cow_version flags);
    destruct (String.eqb (FLAGS_vabc_compression_param flags) ""); simpl;
    rewrite ?app_nil_r;
    (destruct (CreateCowWriter _ _ _ _) as [[wr|] w3]; simpl;
     [ destruct (CowDryRun _ _ _ _ _ _ _ _ _) as [[|] w4]; simpl;
       [ destruct (Finalize _ _) as [[|] w5]; simpl | ] | ]);
    (destruct (fd =? -1); simpl;
     [|destruct (sys_close _ _) as [[] ?]; simpl];
     destruct (fd_Close _ _) as [[] ?]; reflexivity).
Qed.

Lemma releases_descriptor img fd :
  0 <= fd -> releases img fd = [EvClose fd; EvFdClose img].
Proof.
  intros Hfd. unfold releases.
  destruct (Z.eqb_spec fd (-1)); [lia|reflexivity].
Qed.

(** The events of the two scoped releases. *)
Lemma trace_at_return img fd (s : State W) :
  trace (at_return img fd s) = trace s ++ releases img fd.
Proof.
  unfold at_return, image_released, output_released, closed, record, releases.
  destruct (fd =? -1); simpl; [reflexivity|]. now rewrite <- app_assoc.
Qed.

End ProcessPartitionPaths.

(** The seven paths of [ProcessPartition]: the output does not open, the
    block size is zero, the writer finalizes or not, the interpreter fails,
    no writer is built, the image does not open. *)
Ltac by_path m :=
  rewrite ProcessPartition_eq; cbv zeta;
  destruct (fd_Open _ _ _) as [[|] ?w1] eqn:?Himg; cbv beta iota;
  [ destruct (sys_open _ _ _ _) as [?fd ?w2] eqn:?Hcow; cbv beta iota;
    match goal with
    | |- context [?fd <? 0] => destruct (Z.ltb_spec fd 0); cbv beta iota
    end;
    [ | destruct (Z.eqb_spec (block_size m) 0); cbv beta iota;
        [ | destruct (CreateCowWriter _ _ _ _) as [[?wr|] ?w3] eqn:?Hwr; cbv beta iota;
            [ destruct (CowDryRun _ _ _ _ _ _ _ _ _) as [[|] ?w4] eqn:?Hdry;
              cbv beta iota;
              [ destruct (Finalize _ _) as [[|] ?w5] eqn:?Hfin; cbv beta iota | ]
            | ] ] ]
  | ].

Ltac events :=
  unfold state_of, result_of; cbv beta iota;
  rewrite ?trace_at_return; rewrite ?releases_descriptor by assumption;
  unfold logged, record, releases, version_log_of;
  simpl;
  repeat match goal with
         | |- context [if ?c then _ else _] => destruct c; simpl
         end;
  rewrite <- ?app_assoc; simpl.

Ltac same_state :=
  unfold logged, record; simpl; rewrite <- ?app_assoc; simpl; reflexivity.

Section ProcessPartitionFacts.

Context {W : Type} {world_ops : World W}.
Variable flags : Flags.

Local Abbreviation target_img dir p :=
  (FilePath_Append dir (partition_name p +:+ ".img")).
Local Abbreviation output_cow dir p :=
  (FilePath_Append dir (partition_name p +:+ ".cow")).

(** Whatever happens, [ProcessPartition] appends events to the trace; none
    of them announces a partition or reports the totals, and exactly one
    target image is opened, the partition's. *)
Lemma ProcessPartition_quiet m p dir (s : State W) :
  exists evs,
    trace (state_of (ProcessPartition flags m p dir s)) = trace s ++ evs /\
    Forall quiet evs /\
    opened_images evs = [target_img dir p].
Proof.
  by_path m; events;
    (eexists; split; [reflexivity|]); repeat constructor.
Qed.

(** [ProcessPartition] returns false exactly in the five failure cases. *)
Lemma ProcessPartition_false_iff m p dir (s : State W) :
  (exists s', ProcessPartition flags m p dir s = Done false s') <->
  fails_because flags m p dir (world s).
Proof.
  split.
  - intros [s' Hpp]. revert Hpp. by_path m; intros Hpp; try discriminate.
    + eapply output_open_failure; eauto.
    + eapply finalize_failure; eauto.
    + eapply interpreter_failure; eauto.
    + eapply writer_construction_failure; eauto.
    + eapply target_image_missing; eauto.
  - intros [w1 H1|w1 fd w2 H1 H2 Hfd|w1 fd w2 w3 H1 H2 Hfd Hbs H3
            |w1 fd w2 wr w3 w4 H1 H2 Hfd Hbs H3 H4
            |w1 fd w2 wr w3 w4 w5 H1 H2 Hfd Hbs H3 H4 H5];
      unfold target_img_of, output_cow_of in *;
      rewrite ProcessPartition_eq; cbv zeta; rewrite H1; simpl; eauto;
      rewrite H2; simpl;
      (destruct (Z.ltb_spec fd 0); try lia; simpl; eauto);
      (destruct (Z.eqb_spec (block_size m) 0); [contradiction|]; simpl);
      rewrite H3; simpl; eauto; rewrite H4; simpl; eauto;
      rewrite H5; simpl; eauto.
Qed.

(** C8: the target image of partition N in directory D is opened at
    [Append D (N.img)] with [O_RDONLY]; when that fails the partition fails
    at once, before any other call.  Otherwise the very next call opens the
    output at [Append D (N.cow)] with [O_RDWR | O_CREAT] and mode 0744, in
    the world the first open left, and no other file is opened with [open].
    Everything that follows starts from the world this [open] returned: on
    each path the call ends in the state given, after the later calls and
    the release of the two descriptors. *)
Theorem ProcessPartition_opens_image_and_output m p dir (s : State W) opened w1 :
  let img := target_img dir p in
  let cow := output_cow dir p in
  let version := version_of flags m in
  let options := options_of flags m p in
  fd_Open img O_RDONLY (world s) = (opened, w1) ->
  (opened = false ->
     ProcessPartition flags m p dir s =
     Done false
       (mkState w1
          (trace s ++
           [ EvFdOpen img O_RDONLY;
             EvLog ERROR true [Str "Failed to open "; Str img] ]))) /\
  (opened = true ->
   forall fd w2,
   sys_open cow (Z.lor O_RDWR O_CREAT) (Some mode_0744) w1 = (fd, w2) ->
   let s2 :=
     mkState w2
       (trace s ++
        [ EvFdOpen img O_RDONLY;
          EvOpen cow (Z.lor O_RDWR O_CREAT) (Some mode_0744) ]) in
   (exists evs,
      trace (state_of (ProcessPartition flags m p dir s)) = trace s2 ++ evs /\
      Forall (fun e => forall path fl md, e <> EvOpen path fl md) evs) /\
   (fd < 0 ->
      ProcessPartition flags m p dir s =
      Done false
        (at_return img fd
           (record s2 (EvLog ERROR true [Str "Failed to open "; Str cow]) w2))) /\
   (0 <= fd -> block_size m = 0 ->
      ProcessPartition flags m p dir s = Undefined s2) /\
   (0 <= fd -> block_size m <> 0 ->
    forall cow_writer w3,
    CreateCowWriter version options fd w2 = (cow_writer, w3) ->
    let s4 :=
      mkState w3
        (trace s2 ++ version_log_of flags ++
         [EvCreateCowWriter version options fd]) in
    (cow_writer = None ->
       ProcessPartition flags m p dir s =
       Done false
         (at_return img fd (logged s4 ERROR [Str "cow_writer failed."]))) /\
    (forall writer, cow_writer = Some writer ->
     forall dry w4,
     CowDryRun img (operations p) (merge_operations p) (block_size m) writer
       (size (new_partition_info p)) (size (old_partition_info p)) false w3
       = (dry, w4) ->
     let s5 :=
       record s4
         (EvCowDryRun img (operations p) (merge_operations p) (block_size m)
            writer (size (new_partition_info p))
            (size (old_partition_info p)) false) w4 in
     (dry = false ->
        ProcessPartition flags m p dir s =
        Done false
          (at_return img fd
             (logged s5 ERROR [Str (CowDryRun_text +:+ " failed.")]))) /\
     (dry = true ->
      forall finalized w5,
      Finalize writer w4 = (finalized, w5) ->
      let s6 := record s5 (EvFinalize writer) w5 in
      ProcessPartition flags m p dir s =
      Done finalized
        (at_return img fd
           (if finalized then s6
            else logged s6 ERROR [Str "cow_writer->Finalize() failed."])))))) /\
  O_RDONLY = 0 /\
  Z.land (Z.lor O_RDWR O_CREAT) 3 = O_RDWR /\
  Z.testbit (Z.lor O_RDWR O_CREAT) 6 = true /\
  mode_0744 = 7 * 8 ^ 2 + 4 * 8 + 4.
Proof.
  intros img cow version options Hopen.
  subst img cow version options.
  split; [|split; [|repeat split]].
  - intros ->. rewrite ProcessPartition_eq. cbv zeta. rewrite Hopen.
    same_state.
  - intros -> fd w2 Hcow s2. subst s2.
    split; [|split; [|split]].
    + rewrite ProcessPartition_eq. cbv zeta. rewrite Hopen, Hcow.
      destruct (fd <? 0); cbv beta iota;
        [ | destruct (block_size m =? 0); cbv beta iota;
            [ | destruct (CreateCowWriter _ _ _ _) as [[wr|] w3];
                cbv beta iota;
                [ destruct (CowDryRun _ _ _ _ _ _ _ _ _) as [[|] w4];
                  cbv beta iota;
                  [ destruct (Finalize _ _) as [[|] w5]; cbv beta iota | ]
                | ] ] ];
        events;
        (eexists; split; [rewrite <- ?app_assoc; simpl; reflexivity|]);
        repeat constructor; discriminate.
    + intros Hfd. rewrite ProcessPartition_eq. cbv zeta.
      rewrite Hopen, Hcow.
      destruct (Z.ltb_spec fd 0); [|lia]. same_state.
    + intros Hfd Hz. rewrite ProcessPartition_eq. cbv zeta.
      rewrite Hopen, Hcow.
      destruct (Z.ltb_spec fd 0); [lia|].
      destruct (Z.eqb_spec (block_size m) 0); [|contradiction]. same_state.
    + intros Hfd Hnz cow_writer w3 Hwr s4. subst s4.
      assert (Hpp := ProcessPartition_eq flags m p dir s). cbv zeta in Hpp.
      rewrite Hopen, Hcow, Hwr in Hpp.
      destruct (Z.ltb_spec fd 0); [lia|].
      destruct (Z.eqb_spec (block_size m) 0); [contradiction|].
      split.
      * intros ->. rewrite Hpp. same_state.
      * intros writer -> dry w4 Hdry s5. subst s5. rewrite Hdry in Hpp.
        split.
        -- intros ->. rewrite Hpp. same_state.
        -- intros -> finalized w5 Hfin s6. subst s6. rewrite Hfin in Hpp.
           rewrite Hpp. destruct finalized; same_state.
Qed.


End ProcessPartitionFacts.

(** ** What the loop writes to the trace *)

Lemma started_app a b : started (a ++ b) = started a ++ started b.
Proof. apply omap_app. Qed.

Lemma opened_images_app a b :
  opened_images (a ++ b) = opened_images a ++ opened_images b.
Proof. apply omap_app. Qed.

Lemma total_lines_app a b :
  total_lines (a ++ b) = (total_lines a + total_lines b)%nat.
Proof. unfold total_lines. now rewrite List.filter_app, length_app. Qed.

Lemma quiet_started evs : Forall quiet evs -> started evs = [].
Proof.
  induction 1 as [|e evs [Hn _] _ IH]; [reflexivity|].
  unfold started in *. simpl. now rewrite Hn.
Qed.

Lemma quiet_total_lines evs : Forall quiet evs -> total_lines evs = 0%nat.
Proof.
  induction 1 as [|e evs [_ Ht] _ IH]; [reflexivity|].
  unfold total_lines in *. simpl. now rewrite Ht.
Qed.

Section LoopTrace.

Context {W : Type} {world_ops : World W}.
Variable flags : Flags.
Variable manifest : DeltaArchiveManifest.
Variable names : gset string.
Variable images_dir : string.

Local Abbreviation loop := (for_each_partition flags manifest names images_dir).
Local Abbreviation target_img :=
  (fun p => FilePath_Append images_dir (partition_name p +:+ ".img")).

Lemma loop_filter ps :
  forall totals (s : State W),
    loop ps totals s = loop (List.filter (selected names) ps) totals s.
Proof.
  induction ps as [|p ps IH]; intros totals s; [reflexivity|].
  simpl List.filter. destruct (selected names p) eqn:Hsel.
  - rewrite !(loop_round _ _ _ _ _ _ _ _ Hsel).
    destruct (ProcessPartition _ _ _ _ _) as [[|] s1|s1]; try reflexivity.
    destruct (FileSize_path _ _). apply IH.
  - rewrite (loop_skip _ _ _ _ _ _ _ _ Hsel). apply IH.
Qed.

Lemma loop_unselected_removed pre p post :
  selected names p = false ->
  forall totals (s : State W),
    loop (pre ++ p :: post) totals s = loop (pre ++ post) totals s.
Proof.
  intros Hp totals s.
  rewrite (loop_filter (pre ++ p :: post)), (loop_filter (pre ++ post)).
  rewrite !List.filter_app. simpl. now rewrite Hp.
Qed.

Lemma loop_trace ps :
  forall totals (s : State W),
  exists evs done rest,
    trace (state_of (loop ps totals s)) = trace s ++ evs /\
    List.filter (selected names) ps = done ++ rest /\
    started evs = map partition_name done /\
    opened_images evs = map target_img done /\
    total_lines evs = 0%nat /\
    (forall totals', result_of (loop ps totals s) = Some (inr totals') ->
                     rest = []).
Proof.
  induction ps as [|p ps IH]; intros totals s.
  - exists [], [], []. simpl. rewrite app_nil_r. repeat split; auto.
  - simpl List.filter. destruct (selected names p) eqn:Hsel.
    + rewrite (loop_round _ _ _ _ _ _ _ _ Hsel).
      destruct (ProcessPartition_quiet flags manifest p images_dir
                  (logged s INFO [Str (partition_name p)]))
        as (evs1 & Htr & Hq & Hop).
      destruct (ProcessPartition _ _ _ _ _) as [[|] s1|s1]; simpl in Htr.
      * destruct (FileSize_path _ _) as [actual w2].
        match goal with
        | |- context [loop ps ?t ?st] =>
            destruct (IH t st)
              as (evs2 & done & rest & Htr2 & Hf & Hst & Hop2 & Htl & Hr)
        end.
        exists ([EvLog INFO false [Str (partition_name p)]] ++ evs1 ++
                [EvFileSizePath (FilePath_Append images_dir (partition_name p +:+ ".cow"));
                 EvLog INFO false (partition_line (partition_name p)
                                     (estimate_cow_size p) actual)] ++ evs2),
               (p :: done), rest.
        repeat split.
        -- rewrite Htr2. simpl. rewrite Htr. simpl.
           now rewrite <- !app_assoc.
        -- simpl. now rewrite Hf.
        -- rewrite !started_app, (quiet_started _ Hq), Hst. reflexivity.
        -- rewrite !opened_images_app, Hop, Hop2. reflexivity.
        -- rewrite !total_lines_app, (quiet_total_lines _ Hq), Htl.
           reflexivity.
        -- exact Hr.
      * exists ([EvLog INFO false [Str (partition_name p)]] ++ evs1),
               [p], (List.filter (selected names) ps).
        repeat split.
        -- simpl. rewrite Htr. simpl. now rewrite <- app_assoc.
        -- rewrite started_app, (quiet_started _ Hq). reflexivity.
        -- rewrite opened_images_app, Hop. reflexivity.
        -- rewrite total_lines_app, (quiet_total_lines _ Hq). reflexivity.
        -- discriminate.
      * exists ([EvLog INFO false [Str (partition_name p)]] ++ evs1),
               [p], (List.filter (selected names) ps).
        repeat split.
        -- simpl. rewrite Htr. simpl. now rewrite <- app_assoc.
        -- rewrite started_app, (quiet_started _ Hq). reflexivity.
        -- rewrite opened_images_app, Hop. reflexivity.
        -- rewrite total_lines_app, (quiet_total_lines _ Hq). reflexivity.
        -- discriminate.
    + rewrite (loop_skip _ _ _ _ _ _ _ _ Hsel). apply IH.
Qed.

(** C3: a partition whose estimate is 0 is skipped before anything is
    done for it.  A loop over that partition alone returns at once in the
    state it started in (no call, no log line, the totals unchanged), and
    wherever the partition stands in the manifest the run is the one of the
    manifest without it. *)
Theorem zero_estimate_partition_skipped p pre post totals (s : State W) :
  estimate_cow_size p = 0 ->
  loop [p] totals s = Done (inr totals) s /\
  loop (pre ++ p :: post) totals s = loop (pre ++ post) totals s.
Proof.
  intros Hz.
  assert (Hsel : selected names p = false).
  { unfold selected, candidate. now rewrite Hz. }
  split.
  - now rewrite (loop_skip _ _ _ _ _ _ _ _ Hsel).
  - now apply loop_unselected_removed.
Qed.

(** How the loop ends: the partitions started are the selected partitions
    up to the point where the loop stopped, and it stops before the end
    only at a partition for which [ProcessPartition] returns false or
    faults. *)
Lemma loop_outcome ps :
  forall totals (s : State W),
  exists evs done rest,
    trace (state_of (loop ps totals s)) = trace s ++ evs /\
    List.filter (selected names) ps = done ++ rest /\
    started evs = map partition_name done /\
    opened_images evs = map target_img done /\
    (forall totals',
       result_of (loop ps totals s) = Some (inr totals') ->
       rest = [] /\
       processes_all flags manifest names images_dir ps totals s totals'
         (state_of (loop ps totals s))) /\
    (forall code,
       result_of (loop ps totals s) = Some (inl code) ->
       code = 6 /\
       exists pre p post totals1 s1,
         ps = pre ++ p :: post /\
         processes_all flags manifest names images_dir pre totals s totals1 s1 /\
         selected names p = true /\
         round_fails flags manifest images_dir p s1
           (state_of (loop ps totals s)) /\
         done = List.filter (selected names) pre ++ [p] /\
         rest = List.filter (selected names) post) /\
    (result_of (loop ps totals s) = None ->
     exists pre p post totals1 s1,
       ps = pre ++ p :: post /\
       processes_all flags manifest names images_dir pre totals s totals1 s1 /\
       selected names p = true /\
       ProcessPartition flags manifest p images_dir
         (logged s1 INFO [Str (partition_name p)])
       = Undefined (state_of (loop ps totals s)) /\
       done = List.filter (selected names) pre ++ [p] /\
       rest = List.filter (selected names) post).
Proof.
  induction ps as [|p ps IH]; intros totals s.
  - exists [], [], []. simpl. rewrite app_nil_r.
    repeat split; auto; try discriminate.
    injection H as <-. constructor.
  - simpl List.filter. destruct (selected names p) eqn:Hsel.
    + rewrite (loop_round _ _ _ _ _ _ _ _ Hsel).
      destruct (ProcessPartition_quiet flags manifest p images_dir
                  (logged s INFO [Str (partition_name p)]))
        as (evs1 & Htr & Hq & Hop).
      destruct (ProcessPartition _ _ _ _ _) as [[|] s1|s1] eqn:Hpp;
        simpl in Htr.
      * destruct (FileSize_path _ _) as [actual w2] eqn:Hsz.
        match goal with
        | |- context [loop ps ?t ?st] =>
            destruct (IH t st)
              as (evs2 & done & rest & Htr2 & Hf & Hst & Hop2
                  & Hend & Hfail & Hfault);
            set (s2 := st) in *; set (t2 := t) in *
        end.
        assert (Hround : round_ok flags manifest images_dir p s actual s2)
          by (exists s1, w2; auto).
        exists ([EvLog INFO false [Str (partition_name p)]] ++ evs1 ++
                [EvFileSizePath (FilePath_Append images_dir (partition_name p +:+ ".cow"));
                 EvLog INFO false (partition_line (partition_name p)
                                     (estimate_cow_size p) actual)] ++ evs2),
               (p :: done), rest.
        split; [|split; [|split; [|split; [|split; [|split]]]]].
        -- rewrite Htr2. subst s2. simpl. rewrite Htr. simpl.
           now rewrite <- !app_assoc.
        -- simpl. now rewrite Hf.
        -- rewrite !started_app, (quiet_started _ Hq), Hst. reflexivity.
        -- rewrite !opened_images_app, Hop, Hop2. reflexivity.
        -- intros totals' Hres. destruct (Hend totals' Hres) as [-> Hall].
           split; [reflexivity|].
           eapply processes_round; [exact Hsel|exact Hround|exact Hall].
        -- intros code Hres.
           destruct (Hfail code Hres)
             as (-> & pre & q & post & t1 & s3 & -> & Hall & Hq' & Hrf & -> & ->).
           split; [reflexivity|].
           exists (p :: pre), q, post, t1, s3. simpl. rewrite Hsel.
           repeat split; auto.
           eapply processes_round; [exact Hsel|exact Hround|exact Hall].
        -- intros Hres.
           destruct (Hfault Hres)
             as (pre & q & post & t1 & s3 & -> & Hall & Hq' & Hrf & -> & ->).
           exists (p :: pre), q, post, t1, s3. simpl. rewrite Hsel.
           repeat split; auto.
           eapply processes_round; [exact Hsel|exact Hround|exact Hall].
      * exists ([EvLog INFO false [Str (partition_name p)]] ++ evs1),
               [p], (List.filter (selected names) ps).
        split; [|split; [|split; [|split; [|split; [|split]]]]];
          try discriminate.
        -- simpl. rewrite Htr. simpl. now rewrite <- app_assoc.
        -- reflexivity.
        -- rewrite started_app, (quiet_started _ Hq). reflexivity.
        -- rewrite opened_images_app, Hop. reflexivity.
        -- intros code [= <-]. split; [reflexivity|].
           exists [], p, ps, totals, s. repeat split; auto. constructor.
      * exists ([EvLog INFO false [Str (partition_name p)]] ++ evs1),
               [p], (List.filter (selected names) ps).
        split; [|split; [|split; [|split; [|split; [|split]]]]];
          try discriminate.
        -- simpl. rewrite Htr. simpl. now rewrite <- app_assoc.
        -- reflexivity.
        -- rewrite started_app, (quiet_started _ Hq). reflexivity.
        -- rewrite opened_images_app, Hop. reflexivity.
        -- intros _. exists [], p, ps, totals, s. repeat split; auto.
           constructor.
    + rewrite (loop_skip _ _ _ _ _ _ _ _ Hsel).
      destruct (IH totals s)
        as (evs & done & rest & Htr & Hf & Hst & Hop & Hend & Hfail & Hfault).
      exists evs, done, rest.
      split; [exact Htr|]. split; [exact Hf|]. split; [exact Hst|].
      split; [exact Hop|]. split; [|split].
      * intros totals' Hres. destruct (Hend totals' Hres) as [-> Hall].
        split; [reflexivity|]. now apply processes_skip.
      * intros code Hres.
        destruct (Hfail code Hres)
          as (-> & pre & q & post & t1 & s3 & -> & Hall & Hq' & Hrf & -> & ->).
        split; [reflexivity|].
        exists (p :: pre), q, post, t1, s3. simpl. rewrite Hsel.
        repeat split; auto. now apply processes_skip.
      * intros Hres.
        destruct (Hfault Hres)
          as (pre & q & post & t1 & s3 & -> & Hall & Hq' & Hrf & -> & ->).
        exists (p :: pre), q, post, t1, s3. simpl. rewrite Hsel.
        repeat split; auto. now apply processes_skip.
Qed.

(** C4 (amended): the loop processes, in manifest order, the partitions kept
    by the two tests: with an empty name set these are all partitions with a
    non-zero estimate, with a non-empty set those among them whose name is
    in the set.  For each partition processed, and for no other, the name
    is logged and the target image is opened.  When the loop runs to its
    end every selected partition has been processed successfully.  It stops
    before the end only at a selected partition for which
    [ProcessPartition] returns false (the loop then returns 6) or does not
    return: the selected partitions before that one have been processed
    successfully, that one is the last one started, and those after it are
    not touched. *)
Theorem partitions_filtered_in_manifest_order ps totals (s : State W) :
  (names = ∅ ->
     List.filter (selected names) ps = List.filter candidate ps) /\
  (names <> ∅ ->
     List.filter (selected names) ps =
     List.filter (fun p => bool_decide (partition_name p ∈ names))
       (List.filter candidate ps)) /\
  loop ps totals s = loop (List.filter (selected names) ps) totals s /\
  exists evs done rest,
    trace (state_of (loop ps totals s)) = trace s ++ evs /\
    List.filter (selected names) ps = done ++ rest /\
    started evs = map partition_name done /\
    opened_images evs = map target_img done /\
    (forall totals',
       result_of (loop ps totals s) = Some (inr totals') ->
       rest = [] /\
       processes_all flags manifest names images_dir ps totals s totals'
         (state_of (loop ps totals s))) /\
    (forall code,
       result_of (loop ps totals s) = Some (inl code) ->
       code = 6 /\
       exists pre p post totals1 s1,
         ps = pre ++ p :: post /\
         processes_all flags manifest names images_dir pre totals s totals1 s1 /\
         selected names p = true /\
         round_fails flags manifest images_dir p s1
           (state_of (loop ps totals s)) /\
         done = List.filter (selected names) pre ++ [p] /\
         rest = List.filter (selected names) post) /\
    (result_of (loop ps totals s) = None ->
     exists pre p post totals1 s1,
       ps = pre ++ p :: post /\
       processes_all flags manifest names images_dir pre totals s totals1 s1 /\
       selected names p = true /\
       ProcessPartition flags manifest p images_dir
         (logged s1 INFO [Str (partition_name p)])
       = Undefined (state_of (loop ps totals s)) /\
       done = List.filter (selected names) pre ++ [p] /\
       rest = List.filter (selected names) post).
Proof.
  split; [|split; [|split]].
  - intros He. apply List.filter_ext. intros p.
    unfold selected, listed. rewrite (bool_decide_eq_true_2 _ He).
    simpl. apply andb_true_r.
  - intros Hne. clear totals s. induction ps as [|p ps' IH]; [reflexivity|].
    simpl. unfold selected at 1, listed.
    rewrite (bool_decide_eq_false_2 _ Hne). simpl.
    destruct (candidate p); simpl; [|exact IH].
    destruct (bool_decide (partition_name p ∈ names)); now rewrite IH.
  - apply loop_filter.
  - apply loop_outcome.
Qed.

End LoopTrace.

(** C9: a partition with a zero estimate is skipped even when
    [--partitions] names it.  It passes the name filter, yet the loop over
    it alone returns at once in the state it started in, and the run is the
    one of the manifest without it. *)
Theorem zero_estimate_skipped_even_if_listed {W : Type} {world_ops : World W}
    flags m dir p pre post totals (s : State W) :
  estimate_cow_size p = 0 ->
  partition_name p ∈ names_of flags ->
  listed (names_of flags) p = true /\
  for_each_partition flags m (names_of flags) dir [p] totals s
    = Done (inr totals) s /\
  for_each_partition flags m (names_of flags) dir (pre ++ p :: post) totals s
    = for_each_partition flags m (names_of flags) dir (pre ++ post) totals s.
Proof.
  intros Hz Hin.
  assert (Hsel : selected (names_of flags) p = false).
  { unfold selected, candidate. now rewrite Hz. }
  repeat split.
  - unfold listed. rewrite (bool_decide_eq_true_2 _ Hin). apply orb_true_r.
  - now rewrite (loop_skip _ _ _ _ _ _ _ _ Hsel).
  - now apply loop_unselected_removed.
Qed.


(** ** [main] *)

Section MainFacts.

Context {W : Type} {world_ops : World W}.
Variable flags : Flags.
Variable argv0 : string.

Ltac run_main :=
  unfold main, with_ScopedFdCloser, with_munmapper, LOG, PLOG, emit,
    bind, call, call_partial, ret;
  simpl.

Lemma argc_is_3 (positional : list string) :
  length positional = 2%nat ->
  negb (1 + Z.of_nat (length positional) =? 3) = false.
Proof. intros ->. reflexivity. Qed.

Lemma argc_is_not_3 (positional : list string) :
  length positional <> 2%nat ->
  negb (1 + Z.of_nat (length positional) =? 3) = true.
Proof.
  intros H. apply negb_true_iff, Z.eqb_neq. lia.
Qed.

Lemma main_usage positional (s : State W) :
  length positional <> 2%nat ->
  main flags argv0 positional s =
  Done (-1)
    (record s
       (EvPrintf usage_format argv0)
       (world s)).
Proof.
  intros H. unfold main. rewrite (argc_is_not_3 _ H). reflexivity.
Qed.

Lemma main_open_fails positional (s : State W) fd w1 :
  length positional = 2%nat ->
  sys_open (nth 0 positional "") O_RDONLY None (world s) = (fd, w1) ->
  fd < 0 ->
  main flags argv0 positional s =
  Done 1
    (mkState w1
       (trace s ++
        [ EvOpen (nth 0 positional "") O_RDONLY None;
          EvLog ERROR true [Str "Failed to open payload file:"] ])).
Proof.
  intros Hargc Hopen Hfd. unfold main. rewrite (argc_is_3 _ Hargc).
  run_main. rewrite Hopen. simpl.
  destruct (Z.ltb_spec fd 0); [|lia].
  unfold record; simpl. now rewrite <- app_assoc.
Qed.

Lemma main_size_fails positional (s : State W) fd w1 payload_size w2 :
  length positional = 2%nat ->
  sys_open (nth 0 positional "") O_RDONLY None (world s) = (fd, w1) ->
  0 <= fd ->
  FileSize_fd fd w1 = (payload_size, w2) ->
  payload_size <= 0 ->
  main flags argv0 positional s =
  Done 2
    (closed fd
       (mkState w2
          (trace s ++
           [ EvOpen (nth 0 positional "") O_RDONLY None;
             EvFileSizeFd fd;
             EvLog ERROR true
               [Str "Couldn't determine size of payload file, or payload file is empty"] ]))).
Proof.
  intros Hargc Hopen Hfd Hsize Hle. unfold main. rewrite (argc_is_3 _ Hargc).
  run_main. rewrite Hopen. simpl.
  destruct (Z.ltb_spec fd 0); [lia|]. simpl.
  rewrite Hsize. simpl.
  destruct (Z.leb_spec payload_size 0); [|lia]. simpl.
  destruct (Z.leb_spec 0 fd); [|lia].
  unfold closed, record. simpl.
  destruct (sys_close fd w2) as [[] w']. simpl.
  now rewrite <- !app_assoc.
Qed.


Ltac to_mmap Hargc Hopen Hfd Hsize Hpos Hmmap :=
  unfold main; rewrite (argc_is_3 _ Hargc);
  run_main; rewrite Hopen; simpl;
  match goal with
  | |- context [?fd <? 0] => destruct (Z.ltb_spec fd 0); [lia|]
  end; simpl;
  rewrite Hsize; simpl;
  match goal with
  | |- context [?n <=? 0] => destruct (Z.leb_spec n 0); [lia|]
  end; simpl;
  rewrite Hmmap; simpl.

Ltac at_exit_done :=
  unfold at_exit, closed, unmapped, logged, record; simpl;
  repeat match goal with
         | |- context [sys_munmap ?a ?b ?w] =>
             destruct (sys_munmap a b w) as [[] ?]; simpl
         | |- context [sys_close ?a ?w] =>
             destruct (sys_close a w) as [[] ?]; simpl
         end;
  rewrite <- ?app_assoc; simpl; try reflexivity.

Lemma main_mmap_null positional (s : State W) fd w1 payload_size w2 w3 :
  length positional = 2%nat ->
  sys_open (nth 0 positional "") O_RDONLY None (world s) = (fd, w1) ->
  0 <= fd ->
  FileSize_fd fd w1 = (payload_size, w2) ->
  0 < payload_size ->
  sys_mmap payload_size PROT_READ MAP_PRIVATE fd 0 w2 = (nullptr, w3) ->
  main flags argv0 positional s =
  Done 3
    (closed fd
       (mkState w3
          (trace s ++
           [ EvOpen (nth 0 positional "") O_RDONLY None;
             EvFileSizeFd fd;
             EvMmap payload_size PROT_READ MAP_PRIVATE fd 0;
             EvLog ERROR true [Str "Failed to mmap() payload file"] ]))).
Proof.
  intros Hargc Hopen Hfd Hsize Hpos Hmmap.
  to_mmap Hargc Hopen Hfd Hsize Hpos Hmmap.
  destruct (Z.leb_spec 0 fd); [|lia]. at_exit_done.
Qed.

Lemma main_header_fails positional (s : State W) fd w1 payload_size w2
    payload w3 parsed w4 :
  length positional = 2%nat ->
  sys_open (nth 0 positional "") O_RDONLY None (world s) = (fd, w1) ->
  0 <= fd ->
  FileSize_fd fd w1 = (payload_size, w2) ->
  0 < payload_size ->
  sys_mmap payload_size PROT_READ MAP_PRIVATE fd 0 w2 = (payload, w3) ->
  payload <> nullptr ->
  ParsePayloadHeader payload payload_size w3 = Some (parsed, w4) ->
  parsed <> kSuccess ->
  main flags argv0 positional s =
  Done 4
    (at_exit fd payload_size payload
       (mkState w4
          (trace s ++
           [ EvOpen (nth 0 positional "") O_RDONLY None;
             EvFileSizeFd fd;
             EvMmap payload_size PROT_READ MAP_PRIVATE fd 0;
             EvParsePayloadHeader payload payload_size;
             EvLog ERROR false [Str "Payload header parse failed!"] ]))).
Proof.
  intros Hargc Hopen Hfd Hsize Hpos Hmmap Hnn Hparse Hne.
  to_mmap Hargc Hopen Hfd Hsize Hpos Hmmap.
  destruct (Z.eqb_spec payload nullptr); [contradiction|]. simpl.
  rewrite Hparse. simpl.
  destruct parsed; [contradiction| |]; simpl;
    (destruct (Z.leb_spec 0 fd); [|lia]); at_exit_done.
Qed.

Lemma main_manifest_fails positional (s : State W) fd w1 payload_size w2
    payload w3 w4 w5 :
  length positional = 2%nat ->
  sys_open (nth 0 positional "") O_RDONLY None (world s) = (fd, w1) ->
  0 <= fd ->
  FileSize_fd fd w1 = (payload_size, w2) ->
  0 < payload_size ->
  sys_mmap payload_size PROT_READ MAP_PRIVATE fd 0 w2 = (payload, w3) ->
  payload <> nullptr ->
  ParsePayloadHeader payload payload_size w3 = Some (kSuccess, w4) ->
  GetManifest payload payload_size w4 = Some (None, w5) ->
  main flags argv0 positional s =
  Done 5
    (at_exit fd payload_size payload
       (mkState w5
          (trace s ++
           [ EvOpen (nth 0 positional "") O_RDONLY None;
             EvFileSizeFd fd;
             EvMmap payload_size PROT_READ MAP_PRIVATE fd 0;
             EvParsePayloadHeader payload payload_size;
             EvGetManifest payload payload_size;
             EvLog ERROR false [Str "Failed to parse manifest!"] ]))).
Proof.
  intros Hargc Hopen Hfd Hsize Hpos Hmmap Hnn Hparse Hget.
  to_mmap Hargc Hopen Hfd Hsize Hpos Hmmap.
  destruct (Z.eqb_spec payload nullptr); [contradiction|]. simpl.
  rewrite Hparse. simpl. rewrite Hget. simpl.
  destruct (Z.leb_spec 0 fd); [|lia]. at_exit_done.
Qed.

(** Once the front end is through, [main] is the loop followed by the
    aggregate line, then the two scoped objects are released. *)
Lemma main_after_frontend positional (s : State W) fd payload_size payload
    m s5 :
  FrontEnd positional s fd payload_size payload m s5 ->
  main flags argv0 positional s =
  match for_each_partition flags m (names_of flags) (nth 1 positional "")
          (partitions m) (0, 0) s5 with
  | Done (inl code) s6 => Done code (at_exit fd payload_size payload s6)
  | Done (inr totals) s6 =>
      Done 0
        (at_exit fd payload_size payload
           (logged s6 INFO (total_line (fst totals) (snd totals))))
  | Undefined s6 => Undefined s6
  end.
Proof.
  intros [w1 w2 w3 w4 w5 Hargc Hopen Hfd Hsize Hpos Hmmap Hnn Hparse Hget].
  to_mmap Hargc Hopen Hfd Hsize Hpos Hmmap.
  destruct (Z.eqb_spec payload nullptr); [contradiction|]. simpl.
  rewrite Hparse. simpl. rewrite Hget. simpl.
  unfold names_of, record. simpl. rewrite <- !app_assoc. simpl.
  destruct (for_each_partition _ _ _ _ _ _ _) as [[code|[e a]] s6|s6];
    simpl; try reflexivity;
    (destruct (Z.leb_spec 0 fd); [|lia]); at_exit_done.
Qed.


(** When [mmap] fails it returns [MAP_FAILED], which is not the null
    pointer: the test of the source does not fire, the header parser is
    called on that address, and no outcome of the run is exit code 3. *)
Lemma main_mmap_failed positional (s : State W) fd w1 payload_size w2 w3 :
  length positional = 2%nat ->
  sys_open (nth 0 positional "") O_RDONLY None (world s) = (fd, w1) ->
  0 <= fd ->
  FileSize_fd fd w1 = (payload_size, w2) ->
  0 < payload_size ->
  sys_mmap payload_size PROT_READ MAP_PRIVATE fd 0 w2 = (MAP_FAILED, w3) ->
  result_of (main flags argv0 positional s) <> Some 3 /\
  exists evs,
    trace (state_of (main flags argv0 positional s)) =
    trace s ++
    [ EvOpen (nth 0 positional "") O_RDONLY None;
      EvFileSizeFd fd;
      EvMmap payload_size PROT_READ MAP_PRIVATE fd 0;
      EvParsePayloadHeader MAP_FAILED payload_size ] ++ evs.
Proof.
  intros Hargc Hopen Hfd Hsize Hpos Hmmap.
  assert (Hnn : MAP_FAILED <> nullptr) by discriminate.
  destruct (ParsePayloadHeader MAP_FAILED payload_size w3)
    as [[parsed w4]|] eqn:Hparse.
  - destruct (MetadataParseResult_eqb parsed kSuccess) eqn:Hk.
    + assert (parsed = kSuccess) as -> by (destruct parsed; easy).
      destruct (GetManifest MAP_FAILED payload_size w4)
        as [[[m|] w5]|] eqn:Hget.
      * rewrite (main_after_frontend positional s fd payload_size MAP_FAILED m _
                   (FrontEnd_intro _ _ _ _ _ _ _ _ _ _ _
                      Hargc Hopen Hfd Hsize Hpos Hmmap Hnn Hparse Hget)).
        match goal with
        | |- context [for_each_partition ?f ?m ?n ?d ?ps ?t ?st] =>
            destruct (loop_trace f m n d ps t st)
              as (evs & done & rest & Htr & _);
            pose proof (loop_returns f m n d ps t st) as Hret;
            destruct (for_each_partition f m n d ps t st)
              as [[code|totals] s6|s6] eqn:Hloop
        end; simpl in Htr; simpl.
        -- split.
           ++ destruct (Hret code s6) as [Hc _].
              destruct (Hc eq_refl) as [-> _]. discriminate.
           ++ eexists. unfold at_exit, closed, unmapped, record. simpl.
              rewrite Htr. simpl. rewrite <- !app_assoc. simpl. reflexivity.
        -- split; [discriminate|].
           eexists. unfold at_exit, closed, unmapped, logged, record. simpl.
           rewrite Htr. simpl. rewrite <- !app_assoc. simpl. reflexivity.
        -- split; [discriminate|].
           eexists. rewrite Htr. simpl. rewrite <- !app_assoc. simpl.
           reflexivity.
      * rewrite (main_manifest_fails positional s fd w1 payload_size w2
                   MAP_FAILED w3 w4 w5); auto.
        split; [discriminate|].
        eexists. unfold at_exit, closed, unmapped, record. simpl.
        rewrite <- !app_assoc. simpl. reflexivity.
      * to_mmap Hargc Hopen Hfd Hsize Hpos Hmmap.
        rewrite Hparse. simpl. rewrite Hget. simpl.
        split; [discriminate|].
        eexists. rewrite <- !app_assoc. simpl. reflexivity.
    + rewrite (main_header_fails positional s fd w1 payload_size w2
                 MAP_FAILED w3 parsed w4); auto.
      * split; [discriminate|].
        eexists. unfold at_exit, closed, unmapped, record. simpl.
        rewrite <- !app_assoc. simpl. reflexivity.
      * intros ->. discriminate.
  - to_mmap Hargc Hopen Hfd Hsize Hpos Hmmap.
    rewrite Hparse. simpl.
    split; [discriminate|].
    eexists. rewrite <- !app_assoc. simpl. reflexivity.
Qed.


(** C6: the exit code of each phase of the front end, and of a run in which
    every selected partition is processed successfully.  The state given
    with each code lists every call made: after a failing phase nothing
    follows but the release of what was acquired. *)
Theorem exit_codes positional (s : State W) :
  let payload_path := nth 0 positional "" in
  let images_dir := nth 1 positional "" in
  (length positional <> 2%nat ->
     main flags argv0 positional s =
     Done (-1)
       (record s
          (EvPrintf usage_format argv0)
          (world s))) /\
  (length positional = 2%nat ->
   forall fd w1,
   sys_open payload_path O_RDONLY None (world s) = (fd, w1) ->
   (fd < 0 ->
      main flags argv0 positional s =
      Done 1
        (mkState w1
           (trace s ++
            [ EvOpen payload_path O_RDONLY None;
              EvLog ERROR true [Str "Failed to open payload file:"] ]))) /\
   (0 <= fd ->
    forall payload_size w2,
    FileSize_fd fd w1 = (payload_size, w2) ->
    (payload_size <= 0 ->
       main flags argv0 positional s =
       Done 2
         (closed fd
            (mkState w2
               (trace s ++
                [ EvOpen payload_path O_RDONLY None;
                  EvFileSizeFd fd;
                  EvLog ERROR true
                    [Str "Couldn't determine size of payload file, or payload file is empty"] ])))) /\
    (0 < payload_size ->
     forall payload w3,
     sys_mmap payload_size PROT_READ MAP_PRIVATE fd 0 w2 = (payload, w3) ->
     payload <> nullptr ->
     forall parsed w4,
     ParsePayloadHeader payload payload_size w3 = Some (parsed, w4) ->
     (parsed <> kSuccess ->
        main flags argv0 positional s =
        Done 4
          (at_exit fd payload_size payload
             (mkState w4
                (trace s ++
                 [ EvOpen payload_path O_RDONLY None;
                   EvFileSizeFd fd;
                   EvMmap payload_size PROT_READ MAP_PRIVATE fd 0;
                   EvParsePayloadHeader payload payload_size;
                   EvLog ERROR false [Str "Payload header parse failed!"] ])))) /\
     (parsed = kSuccess ->
      forall got w5,
      GetManifest payload payload_size w4 = Some (got, w5) ->
      (got = None ->
         main flags argv0 positional s =
         Done 5
           (at_exit fd payload_size payload
              (mkState w5
                 (trace s ++
                  [ EvOpen payload_path O_RDONLY None;
                    EvFileSizeFd fd;
                    EvMmap payload_size PROT_READ MAP_PRIVATE fd 0;
                    EvParsePayloadHeader payload payload_size;
                    EvGetManifest payload payload_size;
                    EvLog ERROR false [Str "Failed to parse manifest!"] ])))) /\
      (forall m totals s6,
         got = Some m ->
         processes_all flags m (names_of flags) images_dir (partitions m) (0, 0)
           (mkState w5
              (trace s ++
               [ EvOpen payload_path O_RDONLY None;
                 EvFileSizeFd fd;
                 EvMmap payload_size PROT_READ MAP_PRIVATE fd 0;
                 EvParsePayloadHeader payload payload_size;
                 EvGetManifest payload payload_size ]))
           totals s6 ->
         main flags argv0 positional s =
         Done 0
           (at_exit fd payload_size payload
              (logged s6 INFO (total_line (fst totals) (snd totals))))))))).
Proof.
  intros payload_path images_dir. subst payload_path images_dir. split.
  - apply main_usage.
  - intros Hargc fd w1 Hopen. split.
    + intros Hfd. now apply (main_open_fails positional s fd w1).
    + intros Hfd payload_size w2 Hsize. split.
      * intros Hle.
        now apply (main_size_fails positional s fd w1 payload_size w2).
      * intros Hpos payload w3 Hmmap Hnn parsed w4 Hparse. split.
        -- intros Hne.
           now apply (main_header_fails positional s fd w1 payload_size w2
                        payload w3 parsed w4).
        -- intros -> got w5 Hget. split.
           ++ intros ->.
              now apply (main_manifest_fails positional s fd w1 payload_size
                           w2 payload w3 w4 w5).
           ++ intros m totals s6 -> Hall.
              rewrite (main_after_frontend positional s fd payload_size
                         payload m _
                         (FrontEnd_intro _ _ _ _ _ _ _ _ _ _ _
                            Hargc Hopen Hfd Hsize Hpos Hmmap Hnn Hparse Hget)).
              apply loop_completes in Hall. now rewrite Hall.
Qed.

(** C7: when the front end is through and [ProcessPartition] returns false
    for a selected partition (for one of the five reasons), all selected
    partitions before it having succeeded, [main] returns 6.  After the
    failing call the tool only unmaps the payload and closes its
    descriptor: no later partition is touched and nothing is done to the
    output file. *)
Theorem partition_failure_exits_6 positional (s : State W) fd payload_size
    payload m s5 pre p post totals1 s1 s2 :
  let images_dir := nth 1 positional "" in
  FrontEnd positional s fd payload_size payload m s5 ->
  partitions m = pre ++ p :: post ->
  processes_all flags m (names_of flags) images_dir pre (0, 0) s5 totals1 s1 ->
  selected (names_of flags) p = true ->
  round_fails flags m images_dir p s1 s2 ->
  fails_because flags m p images_dir (world s1) /\
  main flags argv0 positional s = Done 6 (at_exit fd payload_size payload s2) /\
  trace (at_exit fd payload_size payload s2) =
    trace s2 ++ [EvMunmap payload payload_size; EvClose fd] /\
  world (at_exit fd payload_size payload s2) =
    snd (sys_close fd (snd (sys_munmap payload payload_size (world s2)))).
Proof.
  intros images_dir Hfe Hps Hpre Hsel Hfail. subst images_dir.
  repeat split.
  - change (world s1)
      with (world (logged s1 INFO [Str (partition_name p)])).
    apply ProcessPartition_false_iff. exists s2. exact Hfail.
  - rewrite (main_after_frontend _ _ _ _ _ _ _ Hfe).
    assert (Hloop : for_each_partition flags m (names_of flags)
                      (nth 1 positional "") (partitions m) (0, 0) s5
                    = Done (inl 6) s2).
    { apply loop_returns. split; [reflexivity|].
      exists pre, p, post, totals1, s1. auto. }
    now rewrite Hloop.
  - unfold at_exit, closed, unmapped, record. simpl.
    now rewrite <- app_assoc.
Qed.

(** C10: with the front end through, the aggregate line is logged exactly
    in the runs in which no selected partition fails.  A failure makes
    [main] return 6 with no aggregate line in the trace; otherwise [main]
    returns 0 and the trace holds one aggregate line, over the accumulated
    totals; these are the only two ways in which [main] returns.  When no
    partition is selected the line is logged with both totals 0. *)
Theorem aggregate_line_iff_no_failure positional (s : State W) fd
    payload_size payload m s5 :
  let images_dir := nth 1 positional "" in
  let names := names_of flags in
  FrontEnd positional s fd payload_size payload m s5 ->
  (forall s6,
     first_failure flags m names images_dir (partitions m) (0, 0) s5 s6 ->
     main flags argv0 positional s
       = Done 6 (at_exit fd payload_size payload s6) /\
     exists evs,
       trace (at_exit fd payload_size payload s6) = trace s5 ++ evs /\
       total_lines evs = 0%nat) /\
  (forall totals s6,
     processes_all flags m names images_dir (partitions m) (0, 0) s5 totals s6 ->
     main flags argv0 positional s
       = Done 0 (at_exit fd payload_size payload
                   (logged s6 INFO (total_line (fst totals) (snd totals)))) /\
     exists evs,
       trace (at_exit fd payload_size payload
                (logged s6 INFO (total_line (fst totals) (snd totals))))
         = trace s5 ++ evs /\
       total_lines evs = 1%nat) /\
  (forall code sf,
     main flags argv0 positional s = Done code sf ->
     (code = 0 /\
      exists totals s6,
        processes_all flags m names images_dir (partitions m) (0, 0) s5
          totals s6) \/
     (code = 6 /\
      exists s6,
        first_failure flags m names images_dir (partitions m) (0, 0) s5 s6)) /\
  (List.filter (selected names) (partitions m) = [] ->
     main flags argv0 positional s
       = Done 0 (at_exit fd payload_size payload
                   (logged s5 INFO (total_line 0 0)))).
Proof.
  intros images_dir names Hfe.
  pose proof (main_after_frontend _ _ _ _ _ _ _ Hfe) as Hmain.
  subst images_dir names.
  set (images_dir := nth 1 positional "") in *.
  set (names := names_of flags) in *.
  destruct (loop_trace flags m names images_dir (partitions m) (0, 0) s5)
    as (evs & done & rest & Htr & _ & _ & _ & Htl & _).
  repeat split.
  - rewrite Hmain.
    assert (Hloop : for_each_partition flags m names images_dir
                      (partitions m) (0, 0) s5 = Done (inl 6) s6)
      by (apply loop_returns; auto).
    now rewrite Hloop.
  - assert (Hloop : for_each_partition flags m names images_dir
                      (partitions m) (0, 0) s5 = Done (inl 6) s6)
      by (apply loop_returns; auto).
    rewrite Hloop in Htr. simpl in Htr.
    exists (evs ++ [EvMunmap payload payload_size; EvClose fd]). split.
    + unfold at_exit, closed, unmapped, record. simpl.
      rewrite Htr. now rewrite <- !app_assoc.
    + rewrite total_lines_app, Htl. reflexivity.
  - rewrite Hmain.
    assert (Hloop : for_each_partition flags m names images_dir
                      (partitions m) (0, 0) s5 = Done (inr totals) s6)
      by (now apply loop_completes).
    now rewrite Hloop.
  - assert (Hloop : for_each_partition flags m names images_dir
                      (partitions m) (0, 0) s5 = Done (inr totals) s6)
      by (now apply loop_completes).
    rewrite Hloop in Htr. simpl in Htr.
    exists (evs ++ [EvLog INFO false (total_line (fst totals) (snd totals));
                    EvMunmap payload payload_size; EvClose fd]). split.
    + unfold at_exit, closed, unmapped, logged, record. simpl.
      rewrite Htr. now rewrite <- !app_assoc.
    + rewrite total_lines_app, Htl. reflexivity.
  - intros code sf. rewrite Hmain.
    destruct (for_each_partition _ _ _ _ _ _ _) as [[c|totals] s6|s6] eqn:Hloop;
      [| |discriminate].
    + apply loop_returns in Hloop. destruct Hloop as [-> Hff].
      intros [= <- _]. right. eauto.
    + apply loop_completes in Hloop.
      intros [= <- _]. left. eauto.
  - intros Hnone. rewrite Hmain, loop_filter, Hnone. reflexivity.
Qed.

End MainFacts.

(** ** The sign of the logged percentages *)

Lemma binary_round_aux_sign_clear mx ex lx :
  F32.sign_clear (binary_round_aux F32.prec F32.emax false mx ex lx) = true.
Proof.
  unfold binary_round_aux.
  destruct (shr_fexp _ _ _ _ _) as [mrs' e'].
  destruct (shr_fexp _ _ _ _ _) as [mrs'' e''].
  destruct (shr_m mrs''); try reflexivity.
  destruct (e'' <=? F32.emax - F32.prec); reflexivity.
Qed.

Lemma of_Z_sign_clear z : 0 <= z -> F32.sign_clear (F32.of_Z z) = true.
Proof.
  intros Hz. unfold F32.of_Z, binary_normalize.
  destruct z as [|p|p]; [reflexivity| |lia].
  unfold binary_round. destruct (shl_align _ _ _).
  apply binary_round_aux_sign_clear.
Qed.

Lemma mul_sign_clear x y :
  F32.sign_clear x = true -> F32.sign_clear y = true ->
  F32.sign_clear (F32.mul x y) = true.
Proof.
  destruct x as [[|]|[|]| |[|] mx ex], y as [[|]|[|]| |[|] my ey];
    simpl; try discriminate; try reflexivity.
  intros _ _. apply binary_round_aux_sign_clear.
Qed.

Lemma div_sign_clear x y :
  F32.sign_clear x = true -> F32.sign_clear y = true ->
  F32.sign_clear (F32.div x y) = true.
Proof.
  destruct x as [[|]|[|]| |[|] mx ex], y as [[|]|[|]| |[|] my ey];
    simpl; try discriminate; try reflexivity.
  intros _ _. unfold F32.div, SFdiv.
  destruct (SFdiv_core_binary _ _ _ _ _ _) as [[mz ez] lz].
  apply binary_round_aux_sign_clear.
Qed.

Lemma sign_clear_not_negative x :
  F32.sign_clear x = true -> F32.is_negative x = false.
Proof.
  destruct x as [[|]|[|]| |[|] mx ex]; simpl; try discriminate; reflexivity.
Qed.

(** The quotient logged is never negative when the two integer operands
    are not. *)
Lemma percent_smaller_not_negative num den :
  0 <= num -> 0 <= den ->
  F32.is_negative (percent_smaller num den) = false.
Proof.
  intros Hn Hd. apply sign_clear_not_negative.
  unfold percent_smaller.
  apply div_sign_clear; [apply mul_sign_clear|]; auto using of_Z_sign_clear.
Qed.

Lemma sub64_nonneg a b : 0 <= Int.sub64 a b.
Proof. unfold Int.sub64, Int.to_uint64. apply Z.mod_pos_bound. reflexivity. Qed.

(** Whatever the estimate, the percentage of a partition line is not
    negative once the output file has a size, and the percentage of the
    aggregate line never is. *)
Lemma partition_line_not_negative name estimate actual_cow_size :
  0 <= actual_cow_size ->
  exists x,
    line_percent (partition_line name estimate actual_cow_size) = Some x /\
    F32.is_negative x = false.
Proof.
  intros Ha. eexists. split; [reflexivity|].
  apply percent_smaller_not_negative; [apply sub64_nonneg|assumption].
Qed.

(** Without wrap-around the numerator is the plain difference. *)
Lemma sub64_exact a b :
  0 <= b <= a -> a < Int.two64 -> Int.sub64 (Int.to_uint64 a) b = a - b.
Proof.
  intros Hb Ha. unfold Int.sub64, Int.to_uint64.
  rewrite (Z.mod_small a) by lia. apply Z.mod_small. lia.
Qed.

Lemma total_line_not_negative estimated_total actual_total :
  0 <= actual_total ->
  exists x,
    line_percent (total_line estimated_total actual_total) = Some x /\
    F32.is_negative x = false.
Proof.
  intros Ha. eexists. split; [reflexivity|].
  apply percent_smaller_not_negative; [apply sub64_nonneg|assumption].
Qed.

(** ** The program run on concrete inputs *)

Section Concrete.

Import Sim Scenario.

Ltac frontend_through w m :=
  exact (FrontEnd_intro positional (start w) 3 1000 mapped_at m
           _ _ _ _ _
           eq_refl eq_refl ltac:(lia) eq_refl ltac:(lia) eq_refl
           ltac:(discriminate) eq_refl eq_refl).

Lemma frontend_abc :
  FrontEnd positional (start world_abc) 3 1000 mapped_at abc
    (loop_start world_abc).
Proof. frontend_through world_abc abc. Defined.

Lemma frontend_C_rejected :
  FrontEnd positional (start world_C_rejected) 3 1000 mapped_at abc
    (loop_start world_C_rejected).
Proof. frontend_through world_C_rejected abc. Defined.

(** C1: with an estimate of 200 bytes and a COW file of 100 bytes the
    subtraction wraps around: both the partition line and the aggregate line
    carry the percentage 2^64 (about 1.8e19), which is not negative.  More
    generally, whatever the estimate and the size of the output file, the
    percentage of either line is not negative. *)
Theorem estimate_above_actual_logs_positive_percent :
  let tr := trace (state_of (run no_flags world_sys)) in
  (result_of (run no_flags world_sys) = Some 0 /\
   In (EvLog INFO false (partition_line "sys" 200 100)) tr /\
   In (EvLog INFO false (total_line 200 100)) tr /\
   line_percent (partition_line "sys" 200 100) = Some (F32.of_Z (2 ^ 64)) /\
   line_percent (total_line 200 100) = Some (F32.of_Z (2 ^ 64)) /\
   F32.is_negative (F32.of_Z (2 ^ 64)) = false) /\
  (forall name estimate (actual : N),
     exists x y,
       line_percent (partition_line name estimate (Z.of_N actual)) = Some x /\
       line_percent (total_line estimate (Z.of_N actual)) = Some y /\
       F32.is_negative x = false /\
       F32.is_negative y = false).
Proof.
  split.
  - vm_compute. repeat split; tauto.
  - intros name estimate actual.
    destruct (partition_line_not_negative name estimate (Z.of_N actual))
      as (x & Hx & Hxn); [lia|].
    destruct (total_line_not_negative estimate (Z.of_N actual))
      as (y & Hy & Hyn); [lia|].
    exists x, y. auto.
Qed.

(** C2: when [mmap] fails the run does not end with exit code 3.  The
    pointer returned is [MAP_FAILED], the null test lets it through and the
    header parser is called on it; nothing is logged about the mapping. *)
Theorem mmap_failure_is_not_detected :
  let w := break_mmap world_sys in
  let o := run no_flags w in
  fst (sys_mmap 1000 PROT_READ MAP_PRIVATE 3 0
         (snd (sys_open "payload.bin" O_RDONLY None w))) = MAP_FAILED /\
  result_of o <> Some 3 /\
  trace (state_of o) =
    [ EvOpen "payload.bin" O_RDONLY None;
      EvFileSizeFd 3;
      EvMmap 1000 PROT_READ MAP_PRIVATE 3 0;
      EvParsePayloadHeader MAP_FAILED 1000 ].
Proof.
  intros w o. split; [reflexivity|]. split.
  - apply (main_mmap_failed no_flags "cow_converter" positional (start w)
             3 (snd (sys_open "payload.bin" O_RDONLY None w)) 1000
             (snd (sys_open "payload.bin" O_RDONLY None w))
             (snd (sys_open "payload.bin" O_RDONLY None w)));
      try reflexivity; lia.
  - vm_compute. reflexivity.
Qed.

(** C4, counterexample: B is a partition of the manifest and
    [--partitions=B] names it, yet it is not processed, its estimate being
    0: the run logs the aggregate line over empty totals and nothing else.
    And with [--partitions=A,C], when the interpreter rejects A the run
    exits with 6 and C, which is named and has a non-zero estimate, is not
    processed either: its image is not opened and its output is not
    created. *)
Lemma listed_zero_estimate_partition_not_processed :
  (In B (partitions abc) /\
   partition_name B ∈ names_of flags_B /\
   result_of (run flags_B world_abc) = Some 0 /\
   trace (state_of (run flags_B world_abc)) =
     [ EvOpen "payload.bin" O_RDONLY None;
       EvFileSizeFd 3;
       EvMmap 1000 PROT_READ MAP_PRIVATE 3 0;
       EvParsePayloadHeader mapped_at 1000;
       EvGetManifest mapped_at 1000;
       EvLog INFO false (total_line 0 0);
       EvMunmap mapped_at 1000;
       EvClose 3 ]) /\
  (In C (partitions abc) /\
   partition_name C ∈ names_of flags_AC /\
   estimate_cow_size C <> 0 /\
   result_of (run flags_AC world_A_rejected) = Some 6 /\
   started (trace (state_of (run flags_AC world_A_rejected))) = ["A"] /\
   opened_images (trace (state_of (run flags_AC world_A_rejected)))
     = ["out/A.img"] /\
   lookup_path "out/C.cow"
     (files (world (state_of (run flags_AC world_A_rejected)))) = None).
Proof.
  split.
  - split; [simpl; tauto|].
    split; [vm_compute; reflexivity|].
    split; vm_compute; reflexivity.
  - split; [simpl; tauto|].
    split; [vm_compute; reflexivity|].
    split; [discriminate|].
    repeat split; vm_compute; reflexivity.
Qed.



Lemma zero_estimate_partition_skipped_witness :
  estimate_cow_size B = 0 /\
  for_each_partition no_flags abc ∅ "out" [B] (0, 0) (loop_start world_abc)
    = Done (inr (0, 0)) (loop_start world_abc) /\
  for_each_partition no_flags abc ∅ "out" ([A] ++ B :: [C]) (0, 0)
    (loop_start world_abc)
    = for_each_partition no_flags abc ∅ "out" ([A] ++ [C]) (0, 0)
        (loop_start world_abc).
Proof.
  split; [reflexivity|].
  apply (zero_estimate_partition_skipped no_flags abc ∅ "out" B [A] [C]
           (0, 0) (loop_start world_abc)).
  reflexivity.
Defined.

Lemma zero_estimate_skipped_even_if_listed_witness :
  estimate_cow_size B = 0 /\
  "B" ∈ names_of flags_B /\
  listed (names_of flags_B) B = true /\
  for_each_partition flags_B abc (names_of flags_B) "out" [B] (0, 0)
    (loop_start world_abc)
    = Done (inr (0, 0)) (loop_start world_abc) /\
  for_each_partition flags_B abc (names_of flags_B) "out" ([A] ++ B :: [C])
    (0, 0) (loop_start world_abc)
    = for_each_partition flags_B abc (names_of flags_B) "out" ([A] ++ [C])
        (0, 0) (loop_start world_abc).
Proof.
  assert (Hin : "B" ∈ names_of flags_B) by (vm_compute; reflexivity).
  split; [reflexivity|]. split; [exact Hin|].
  apply (zero_estimate_skipped_even_if_listed flags_B abc "out" B [A] [C]
           (0, 0) (loop_start world_abc)).
  - reflexivity.
  - exact Hin.
Defined.

Lemma partitions_filtered_in_manifest_order_witness :
  names_of flags_AC <> ∅ /\
  List.filter (selected (names_of flags_AC)) [A; B; C] = [A; C] /\
  (names_of no_flags = ∅ /\
   List.filter (selected (names_of no_flags)) [A; B; C] = [A; C]) /\
  (exists evs,
     trace (state_of (for_each_partition flags_AC abc (names_of flags_AC) "out"
                        [A; B; C] (0, 0) (loop_start world_abc)))
       = trace (loop_start world_abc) ++ evs /\
     started evs = ["A"; "C"] /\
     opened_images evs = ["out/A.img"; "out/C.img"]) /\
  (result_of (for_each_partition flags_AC abc (names_of flags_AC) "out"
                [A; B; C] (0, 0) (loop_start world_A_rejected))
   = Some (inl 6) /\
   exists evs,
     trace (state_of (for_each_partition flags_AC abc (names_of flags_AC) "out"
                        [A; B; C] (0, 0) (loop_start world_A_rejected)))
       = trace (loop_start world_A_rejected) ++ evs /\
     started evs = ["A"] /\
     opened_images evs = ["out/A.img"]).
Proof.
  assert (Hne : names_of flags_AC <> ∅).
  { intros H. assert (Hin : "A" ∈ names_of flags_AC) by (vm_compute; reflexivity).
    rewrite H in Hin. exact (not_elem_of_empty (C:=gset string) "A" Hin). }
  assert (He : names_of no_flags = ∅) by reflexivity.
  destruct (partitions_filtered_in_manifest_order flags_AC abc
              (names_of flags_AC) "out" [A; B; C] (0, 0)
              (loop_start world_abc))
    as (_ & Hlisted & _ & evs & done & rest & Htr & Hsplit & Hst & Hop
        & Hend & _).
  destruct (partitions_filtered_in_manifest_order no_flags abc
              (names_of no_flags) "out" [A; B; C] (0, 0)
              (loop_start world_abc)) as (Hall & _).
  destruct (partitions_filtered_in_manifest_order flags_AC abc
              (names_of flags_AC) "out" [A; B; C] (0, 0)
              (loop_start world_A_rejected))
    as (_ & _ & _ & evs' & done' & rest' & Htr' & Hsplit' & Hst' & Hop'
        & _ & Hfail & _).
  assert (Hf : List.filter (selected (names_of flags_AC)) [A; B; C] = [A; C]).
  { rewrite (Hlisted Hne). vm_compute. reflexivity. }
  assert (H6 : result_of
                 (for_each_partition flags_AC abc (names_of flags_AC) "out"
                    [A; B; C] (0, 0) (loop_start world_A_rejected))
               = Some (inl 6)) by (vm_compute; reflexivity).
  split; [exact Hne|]. split; [exact Hf|].
  split; [split; [exact He|]|split].
  - rewrite (Hall He). vm_compute. reflexivity.
  - exists evs. split; [exact Htr|].
    destruct (Hend (300, 400)) as [Hrest _]; [vm_compute; reflexivity|].
    rewrite Hrest, app_nil_r, Hf in Hsplit. subst done.
    split; [exact Hst|exact Hop].
  - split; [exact H6|].
    exists evs'. split; [exact Htr'|].
    destruct (Hfail 6 H6)
      as (_ & pre & p & post & t1 & s1 & Hps & Hpre & Hsel & Hrf & Hd & Hr).
    assert (Hpre_nil : pre = []).
    { destruct pre as [|q pre]; [reflexivity|].
      simpl in Hps. injection Hps as <- Hps.
      exfalso. inversion Hpre as [| |? ? ? ? ? ? ? ? Hq Hround]; subst.
      - discriminate.
      - destruct Hround as (s2 & w2 & Hpp & _).
        revert Hpp. vm_compute. discriminate. }
    subst pre. simpl in Hps. injection Hps as <- <-.
    simpl in Hd. subst done'.
    split; [exact Hst'|exact Hop'].
Defined.


Lemma ProcessPartition_opens_image_and_output_witness :
  ProcessPartition no_flags abc A "out"
    (start (remove_file "out/A.img" world_abc))
  = Done false
      (mkState (remove_file "out/A.img" world_abc)
         [ EvFdOpen "out/A.img" O_RDONLY;
           EvLog ERROR true [Str "Failed to open "; Str "out/A.img"] ]) /\
  lookup_path "out/A.cow" (files world_abc) = None /\
  exists s',
    ProcessPartition no_flags abc A "out" (start world_abc) = Done true s' /\
    (exists evs,
       trace s' =
       [ EvFdOpen "out/A.img" O_RDONLY;
         EvOpen "out/A.cow" (Z.lor O_RDWR O_CREAT) (Some mode_0744) ] ++ evs) /\
    lookup_path "out/A.cow" (files (world s')) = Some 150 /\
    fds (world s') = [].
Proof.
  refine (conj _ (conj eq_refl _)).
  - destruct (ProcessPartition_opens_image_and_output (world_ops := ops)
                no_flags abc A "out"
                (start (remove_file "out/A.img" world_abc)) false
                (remove_file "out/A.img" world_abc)
                ltac:(vm_compute; reflexivity)) as (Hmissing & _).
    exact (Hmissing eq_refl).
  - destruct (ProcessPartition_opens_image_and_output (world_ops := ops)
                no_flags abc A "out" (start world_abc) true
                (snd (fd_open "out/A.img" O_RDONLY world_abc))
                ltac:(vm_compute; reflexivity))
      as (_ & Hpresent & _).
    destruct (Hpresent eq_refl 4 _ eq_refl) as (_ & _ & _ & Hcreated).
    destruct (Hcreated ltac:(lia) ltac:(discriminate) (Some 4) _ eq_refl)
      as (_ & Hwriter).
    destruct (Hwriter 4 eq_refl true _ eq_refl) as (_ & Hdry).
    pose proof (Hdry eq_refl true _ eq_refl) as Hdone.
    eexists. split; [exact Hdone|].
    split; [eexists; vm_compute; reflexivity|].
    split; vm_compute; reflexivity.
Defined.

Lemma exit_codes_witness :
  result_of (main no_flags "cow_converter" ["payload.bin"] (start world_abc))
    = Some (-1) /\
  result_of (run no_flags (remove_file "payload.bin" world_abc)) = Some 1 /\
  result_of (run no_flags (resize "payload.bin" 0 world_abc)) = Some 2 /\
  result_of (run no_flags (break_header world_abc)) = Some 4 /\
  result_of (run no_flags (break_manifest world_abc)) = Some 5 /\
  result_of (run no_flags world_abc) = Some 0.
Proof.
  refine (conj _ (conj _ (conj _ (conj _ (conj _ _))))).
  - rewrite (proj1 (exit_codes (world_ops := ops) no_flags "cow_converter" ["payload.bin"]
                      (start world_abc)) ltac:(discriminate)).
    reflexivity.
  - unfold run.
    destruct (proj2 (exit_codes (world_ops := ops) no_flags "cow_converter"
                       ["payload.bin"; "out"]
                       (start (remove_file "payload.bin" world_abc)))
                eq_refl _ _ eq_refl) as [H _].
    rewrite (H ltac:(vm_compute; reflexivity)). reflexivity.
  - unfold run.
    destruct (proj2 (exit_codes (world_ops := ops) no_flags "cow_converter"
                       ["payload.bin"; "out"]
                       (start (resize "payload.bin" 0 world_abc)))
                eq_refl _ _ eq_refl) as [_ H].
    destruct (H ltac:(vm_compute; discriminate) _ _ eq_refl) as [H2 _].
    rewrite (H2 ltac:(vm_compute; discriminate)). reflexivity.
  - unfold run.
    destruct (proj2 (exit_codes (world_ops := ops) no_flags "cow_converter"
                       ["payload.bin"; "out"]
                       (start (break_header world_abc)))
                eq_refl _ _ eq_refl) as [_ H].
    destruct (H ltac:(vm_compute; discriminate) _ _ eq_refl) as [_ H2].
    destruct (H2 ltac:(reflexivity) _ _ eq_refl ltac:(discriminate)
                _ _ eq_refl) as [H4 _].
    rewrite (H4 ltac:(discriminate)). reflexivity.
  - unfold run.
    destruct (proj2 (exit_codes (world_ops := ops) no_flags "cow_converter"
                       ["payload.bin"; "out"]
                       (start (break_manifest world_abc)))
                eq_refl _ _ eq_refl) as [_ H].
    destruct (H ltac:(vm_compute; discriminate) _ _ eq_refl) as [_ H2].
    destruct (H2 ltac:(reflexivity) _ _ eq_refl ltac:(discriminate)
                _ _ eq_refl) as [_ H4].
    destruct (H4 eq_refl _ _ eq_refl) as [H5 _].
    rewrite (H5 eq_refl). reflexivity.
  - unfold run.
    destruct (proj2 (exit_codes (world_ops := ops) no_flags "cow_converter"
                       ["payload.bin"; "out"] (start world_abc))
                eq_refl _ _ eq_refl) as [_ H].
    destruct (H ltac:(vm_compute; discriminate) _ _ eq_refl) as [_ H2].
    destruct (H2 ltac:(reflexivity) _ _ eq_refl ltac:(discriminate)
                _ _ eq_refl) as [_ H4].
    destruct (H4 eq_refl _ _ eq_refl) as [_ H0].
    rewrite (H0 abc (300, 400)
               (state_of (for_each_partition no_flags abc (names_of no_flags)
                            "out" (partitions abc) (0, 0)
                            (loop_start world_abc)))
               eq_refl).
    + reflexivity.
    + apply loop_completes. vm_compute. reflexivity.
Defined.

Lemma partition_failure_exits_6_witness :
  result_of (run no_flags world_C_rejected) = Some 6 /\
  started (trace (state_of (run no_flags world_C_rejected))) = ["A"; "C"] /\
  In ("out/C.cow", 0)
     (files (world (state_of (run no_flags world_C_rejected)))).
Proof.
  pose (s1 := state_of (for_each_partition no_flags abc (names_of no_flags)
                          "out" [A; B] (0, 0)
                          (loop_start world_C_rejected))).
  pose (s2 := state_of (ProcessPartition no_flags abc C "out"
                          (logged s1 INFO [Str "C"]))).
  destruct (partition_failure_exits_6 no_flags "cow_converter" positional
              (start world_C_rejected) 3 1000 mapped_at abc
              (loop_start world_C_rejected) [A; B] C [] (100, 150) s1 s2
              frontend_C_rejected eq_refl)
    as (_ & Hmain & _).
  - apply loop_completes. vm_compute. reflexivity.
  - vm_compute. reflexivity.
  - unfold round_fails. vm_compute. reflexivity.
  - unfold run. change ["payload.bin"; "out"] with positional.
    rewrite Hmain. vm_compute. repeat split; tauto.
Defined.

Lemma aggregate_line_iff_no_failure_witness :
  (result_of (run no_flags world_abc) = Some 0 /\
   total_lines (trace (state_of (run no_flags world_abc))) = 1%nat) /\
  (result_of (run no_flags world_C_rejected) = Some 6 /\
   total_lines (trace (state_of (run no_flags world_C_rejected))) = 0%nat) /\
  run flags_Z world_abc
    = Done 0 (at_exit 3 1000 mapped_at
                (logged (loop_start world_abc) INFO (total_line 0 0))).
Proof.
  destruct (aggregate_line_iff_no_failure no_flags "cow_converter" positional
              (start world_abc) 3 1000 mapped_at abc (loop_start world_abc)
              frontend_abc) as (_ & Hok & _ & _).
  destruct (aggregate_line_iff_no_failure no_flags "cow_converter" positional
              (start world_C_rejected) 3 1000 mapped_at abc
              (loop_start world_C_rejected) frontend_C_rejected)
    as (Hfail & _ & _ & _).
  destruct (aggregate_line_iff_no_failure flags_Z "cow_converter" positional
              (start world_abc) 3 1000 mapped_at abc (loop_start world_abc)
              frontend_abc) as (_ & _ & _ & Hnone).
  split; [|split].
  - destruct (Hok (300, 400)
                (state_of (for_each_partition no_flags abc (names_of no_flags)
                             "out" (partitions abc) (0, 0)
                             (loop_start world_abc)))) as [Hmain _].
    + apply loop_completes. vm_compute. reflexivity.
    + unfold run. change ["payload.bin"; "out"] with positional.
      rewrite Hmain. vm_compute. split; reflexivity.
  - destruct (Hfail
                (state_of (for_each_partition no_flags abc (names_of no_flags)
                             "out" (partitions abc) (0, 0)
                             (loop_start world_C_rejected)))) as [Hmain _].
    + apply loop_returns with (code := 6). vm_compute. reflexivity.
    + unfold run. change ["payload.bin"; "out"] with positional.
      rewrite Hmain. vm_compute. split; reflexivity.
  - unfold run. change ["payload.bin"; "out"] with positional.
    apply Hnone. vm_compute. reflexivity.
Defined.

End Concrete.

(** * Part III: further properties of the code *)

(** ** Counting events *)

Lemma error_lines_app a b :
  error_lines (a ++ b) = (error_lines a + error_lines b)%nat.
Proof. unfold error_lines. now rewrite List.filter_app, length_app. Qed.

Lemma closes_app a b : closes (a ++ b) = (closes a + closes b)%nat.
Proof. unfold closes. now rewrite List.filter_app, length_app. Qed.

Lemma munmaps_app a b : munmaps (a ++ b) = (munmaps a + munmaps b)%nat.
Proof. unfold munmaps. now rewrite List.filter_app, length_app. Qed.

Lemma opens_app a b : opens (a ++ b) = (opens a + opens b)%nat.
Proof. unfold opens. now rewrite List.filter_app, length_app. Qed.

Lemma mmaps_app a b : mmaps (a ++ b) = (mmaps a + mmaps b)%nat.
Proof. unfold mmaps. now rewrite List.filter_app, length_app. Qed.

Lemma fd_closes_app a b :
  fd_closes (a ++ b) = (fd_closes a + fd_closes b)%nat.
Proof. unfold fd_closes. now rewrite List.filter_app, length_app. Qed.

Lemma fd_opens_app a b :
  length (opened_images (a ++ b))
  = (length (opened_images a) + length (opened_images b))%nat.
Proof. now rewrite opened_images_app, length_app. Qed.




(** ** More on [ProcessPartition] *)

Section MoreProcessPartition.

Context {W : Type} {world_ops : World W}.
Variable flags : Flags.

Local Abbreviation target_img dir p :=
  (FilePath_Append dir (partition_name p +:+ ".img")).
Local Abbreviation output_cow dir p :=
  (FilePath_Append dir (partition_name p +:+ ".cow")).

(** X1: [ProcessPartition] returns true exactly when the five steps succeed
    in turn; the calls are then made in this order, the output descriptor
    and the image are released, and nothing else is done. *)
Theorem ProcessPartition_true_iff m p dir (s s' : State W) :
  ProcessPartition flags m p dir s = Done true s' <->
  exists w1 fd w2 writer w3 w4 w5,
    fd_Open (target_img dir p) O_RDONLY (world s) = (true, w1) /\
    sys_open (output_cow dir p) (Z.lor O_RDWR O_CREAT) (Some mode_0744) w1
      = (fd, w2) /\
    0 <= fd /\
    block_size m <> 0 /\
    CreateCowWriter (version_of flags m) (options_of flags m p) fd w2
      = (Some writer, w3) /\
    CowDryRun (target_img dir p) (operations p) (merge_operations p)
      (block_size m) writer (size (new_partition_info p))
      (size (old_partition_info p)) false w3 = (true, w4) /\
    Finalize writer w4 = (true, w5) /\
    s' = at_return (target_img dir p) fd
           (mkState w5
              (trace s ++
               [ EvFdOpen (target_img dir p) O_RDONLY;
                 EvOpen (output_cow dir p) (Z.lor O_RDWR O_CREAT)
                   (Some mode_0744) ] ++
               version_log_of flags ++
               [ EvCreateCowWriter (version_of flags m) (options_of flags m p)
                   fd;
                 EvCowDryRun (target_img dir p) (operations p)
                   (merge_operations p) (block_size m) writer
                   (size (new_partition_info p))
                   (size (old_partition_info p)) false;
                 EvFinalize writer ])) /\
    trace s' =
      trace s ++
      [ EvFdOpen (target_img dir p) O_RDONLY;
        EvOpen (output_cow dir p) (Z.lor O_RDWR O_CREAT) (Some mode_0744) ] ++
      version_log_of flags ++
      [ EvCreateCowWriter (version_of flags m) (options_of flags m p) fd;
        EvCowDryRun (target_img dir p) (operations p) (merge_operations p)
          (block_size m) writer (size (new_partition_info p))
          (size (old_partition_info p)) false;
        EvFinalize writer;
        EvClose fd;
        EvFdClose (target_img dir p) ].
Proof.
  split.
  - by_path m; intros Hpp; try discriminate. injection Hpp as <-.
    exists w1, fd, w2, wr, w3, w4, w5.
    repeat split; auto.
    + same_state.
    + rewrite trace_at_return, releases_descriptor by assumption.
      unfold record. simpl. rewrite <- ?app_assoc. simpl.
      now rewrite <- ?app_assoc.
  - intros (w1 & fd & w2 & wr & w3 & w4 & w5
            & H1 & H2 & Hfd & Hbs & H3 & H4 & H5 & -> & _).
    rewrite ProcessPartition_eq. cbv zeta. rewrite H1, H2.
    destruct (Z.ltb_spec fd 0); [lia|].
    destruct (Z.eqb_spec (block_size m) 0); [contradiction|].
    rewrite H3, H4, H5. same_state.
Qed.

(** X2: [ProcessPartition] does not return exactly when both files were opened
    and the manifest's block size is 0: the division faults, the output file
    having been created and no writer yet. *)
Theorem ProcessPartition_faults_iff m p dir (s s' : State W) :
  ProcessPartition flags m p dir s = Undefined s' <->
  exists w1 fd w2,
    fd_Open (target_img dir p) O_RDONLY (world s) = (true, w1) /\
    sys_open (output_cow dir p) (Z.lor O_RDWR O_CREAT) (Some mode_0744) w1
      = (fd, w2) /\
    0 <= fd /\
    block_size m = 0 /\
    s' = mkState w2
           (trace s ++
            [ EvFdOpen (target_img dir p) O_RDONLY;
              EvOpen (output_cow dir p) (Z.lor O_RDWR O_CREAT) (Some mode_0744) ]).
Proof.
  split.
  - by_path m; intros Hpp; try discriminate. injection Hpp as <-.
    exists w1, fd, w2. repeat split; auto.
    unfold record; simpl. now rewrite <- app_assoc.
  - intros (w1 & fd & w2 & H1 & H2 & Hfd & Hbs & ->).
    rewrite ProcessPartition_eq. cbv zeta. rewrite H1, H2.
    destruct (Z.ltb_spec fd 0); [lia|].
    destruct (Z.eqb_spec (block_size m) 0); [|contradiction]. same_state.
Qed.


End MoreProcessPartition.


(** ** More on the loop *)

Section MoreLoop.

Context {W : Type} {world_ops : World W}.
Variable flags : Flags.
Variable manifest : DeltaArchiveManifest.
Variable names : gset string.
Variable images_dir : string.

Local Abbreviation loop := (for_each_partition flags manifest names images_dir).
Local Abbreviation output_cow :=
  (fun p => FilePath_Append images_dir (partition_name p +:+ ".cow")).

(** What [ProcessPartition] adds to the trace: no mapping made or
    released, no per-partition figures, no measure, one error line when it
    returns false, at most one writer, created with [version_of] and
    [options_of], and at most one file, the output, created for sure when
    it returns true. *)
Lemma ProcessPartition_counts p (s : State W) :
  exists evs,
    trace (state_of (ProcessPartition flags manifest p images_dir s))
      = trace s ++ evs /\
    mmaps evs = 0%nat /\
    munmaps evs = 0%nat /\
    omap reported evs = [] /\
    error_lines evs =
      match result_of (ProcessPartition flags manifest p images_dir s) with
      | Some false => 1%nat
      | _ => 0%nat
      end /\
    (omap writer_created evs = [] \/
     omap writer_created evs
       = [(version_of flags manifest, options_of flags manifest p)]) /\
    omap measured evs = [] /\
    (omap created evs = [] \/ omap created evs = [output_cow p]) /\
    (result_of (ProcessPartition flags manifest p images_dir s) = Some true ->
     omap created evs = [output_cow p]).
Proof.
  by_path manifest; events;
    (eexists; split; [reflexivity|]);
    repeat (split; [reflexivity|]);
    (split; [(left; reflexivity) || (right; reflexivity)|]);
    (split; [reflexivity|]);
    (split; [(left; reflexivity) || (right; reflexivity)|]);
    first [reflexivity | discriminate | intros _; reflexivity].
Qed.

(** What [ProcessPartition] opens and releases: never more closes than
    opens, at most one open of each kind left without its close, and none
    when the call returns true. *)
Lemma ProcessPartition_releases p (s : State W) :
  exists evs,
    trace (state_of (ProcessPartition flags manifest p images_dir s))
      = trace s ++ evs /\
    (closes evs <= opens evs <= closes evs + 1)%nat /\
    (fd_closes evs <= length (opened_images evs) <= fd_closes evs + 1)%nat /\
    (result_of (ProcessPartition flags manifest p images_dir s) = Some true ->
     closes evs = opens evs /\
     fd_closes evs = length (opened_images evs)).
Proof.
  by_path manifest; events;
    (eexists; split; [reflexivity|]);
    (split; [cbv; lia|]); (split; [cbv; lia|]);
    first [discriminate | intros _; split; reflexivity].
Qed.

(** X4: The loop over a concatenation is the loop over the first list
    followed, unless it returned or faulted, by the loop over the second list
    from the totals and the state reached. *)
Theorem loop_app ps1 ps2 :
  forall totals (s : State W),
    loop (ps1 ++ ps2) totals s =
    match loop ps1 totals s with
    | Done (inr totals1) s1 => loop ps2 totals1 s1
    | other => other
    end.
Proof.
  induction ps1 as [|p ps1 IH]; intros totals s; [reflexivity|].
  simpl app. destruct (selected names p) eqn:Hsel.
  - rewrite !(loop_round _ _ _ _ _ _ _ _ Hsel).
    destruct (ProcessPartition _ _ _ _ _) as [[|] s1|s1]; try reflexivity.
    destruct (FileSize_path _ _). apply IH.
  - rewrite !(loop_skip _ _ _ _ _ _ _ _ Hsel). apply IH.
Qed.

Lemma loop_counts ps :
  forall totals (s : State W),
  exists evs,
    trace (state_of (loop ps totals s)) = trace s ++ evs /\
    mmaps evs = 0%nat /\
    munmaps evs = 0%nat /\
    error_lines evs =
      match result_of (loop ps totals s) with
      | Some (inl _) => 1%nat
      | _ => 0%nat
      end.
Proof.
  induction ps as [|p ps IH]; intros totals s.
  - exists []. simpl. rewrite app_nil_r. auto.
  - destruct (selected names p) eqn:Hsel.
    + rewrite (loop_round _ _ _ _ _ _ _ _ Hsel).
      destruct (ProcessPartition_counts p (logged s INFO [Str (partition_name p)]))
        as (evs1 & Htr & Hc & Hm & _ & He & _).
      destruct (ProcessPartition _ _ _ _ _) as [[|] s1|s1];
        simpl in Htr, He.
      * destruct (FileSize_path _ _) as [actual w2].
        match goal with
        | |- context [loop ps ?t ?st] =>
            destruct (IH t st) as (evs2 & Htr2 & Hc2 & Hm2 & He2)
        end.
        eexists (_ :: evs1 ++ [_; _] ++ evs2). split.
        { rewrite Htr2. simpl. rewrite Htr. simpl.
          rewrite <- !app_assoc. reflexivity. }
        rewrite <- He2.
        change (?e :: evs1 ++ ?l ++ evs2) with ([e] ++ evs1 ++ l ++ evs2).
        rewrite !mmaps_app, !munmaps_app, !error_lines_app,
          Hc, Hm, He, Hc2, Hm2.
        repeat split; reflexivity.
      * eexists (_ :: evs1). split.
        { simpl. rewrite Htr. simpl. rewrite <- app_assoc. reflexivity. }
        change (?e :: evs1) with ([e] ++ evs1).
        rewrite mmaps_app, munmaps_app, error_lines_app, Hc, Hm, He.
        repeat split; reflexivity.
      * eexists (_ :: evs1). split.
        { simpl. rewrite Htr. simpl. rewrite <- app_assoc. reflexivity. }
        change (?e :: evs1) with ([e] ++ evs1).
        rewrite mmaps_app, munmaps_app, error_lines_app, Hc, Hm, He.
        repeat split; reflexivity.
    + rewrite (loop_skip _ _ _ _ _ _ _ _ Hsel). apply IH.
Qed.

(** What the loop opens and releases: never more closes than opens, at most
    one open of each kind left without its close, and none when the loop
    runs to its end. *)
Lemma loop_releases ps :
  forall totals (s : State W),
  exists evs,
    trace (state_of (loop ps totals s)) = trace s ++ evs /\
    (closes evs <= opens evs <= closes evs + 1)%nat /\
    (fd_closes evs <= length (opened_images evs) <= fd_closes evs + 1)%nat /\
    (forall totals',
       result_of (loop ps totals s) = Some (inr totals') ->
       closes evs = opens evs /\
       fd_closes evs = length (opened_images evs)).
Proof.
  induction ps as [|p ps IH]; intros totals s.
  - exists []. simpl. rewrite app_nil_r. repeat split; auto.
  - destruct (selected names p) eqn:Hsel.
    + rewrite (loop_round _ _ _ _ _ _ _ _ Hsel).
      destruct (ProcessPartition_releases p
                  (logged s INFO [Str (partition_name p)]))
        as (evs1 & Htr & Hc & Hf & Hok).
      destruct (ProcessPartition _ _ _ _ _) as [[|] s1|s1];
        simpl in Htr, Hok.
      * destruct (Hok eq_refl) as [Hc1 Hf1].
        destruct (FileSize_path _ _) as [actual w2].
        match goal with
        | |- context [loop ps ?t ?st] =>
            destruct (IH t st) as (evs2 & Htr2 & Hc2 & Hf2 & Hok2)
        end.
        eexists ([_] ++ evs1 ++ [_; _] ++ evs2). split.
        { rewrite Htr2. simpl. rewrite Htr. simpl.
          rewrite <- !app_assoc. reflexivity. }
        rewrite !closes_app, !opens_app, !fd_closes_app, !fd_opens_app.
        change (closes [?a]) with 0%nat. change (opens [?a]) with 0%nat.
        change (fd_closes [?a]) with 0%nat.
        change (length (opened_images [?a])) with 0%nat.
        change (closes [?a; ?b]) with 0%nat.
        change (opens [?a; ?b]) with 0%nat.
        change (fd_closes [?a; ?b]) with 0%nat.
        change (length (opened_images [?a; ?b])) with 0%nat.
        split; [lia|]. split; [lia|].
        intros totals' Hres. destruct (Hok2 totals' Hres). lia.
      * eexists ([_] ++ evs1). split.
        { simpl. rewrite Htr. simpl. rewrite <- app_assoc. reflexivity. }
        rewrite !closes_app, !opens_app, !fd_closes_app, !fd_opens_app.
        change (closes [?a]) with 0%nat. change (opens [?a]) with 0%nat.
        change (fd_closes [?a]) with 0%nat.
        change (length (opened_images [?a])) with 0%nat.
        split; [lia|]. split; [lia|]. discriminate.
      * eexists ([_] ++ evs1). split.
        { simpl. rewrite Htr. simpl. rewrite <- app_assoc. reflexivity. }
        rewrite !closes_app, !opens_app, !fd_closes_app, !fd_opens_app.
        change (closes [?a]) with 0%nat. change (opens [?a]) with 0%nat.
        change (fd_closes [?a]) with 0%nat.
        change (length (opened_images [?a])) with 0%nat.
        split; [lia|]. split; [lia|]. discriminate.
    + rewrite (loop_skip _ _ _ _ _ _ _ _ Hsel). apply IH.
Qed.

Lemma loop_tally ps totals (s : State W) :
  exists evs,
    trace (state_of (loop ps totals s)) = trace s ++ evs /\
    mmaps evs = 0%nat /\
    munmaps evs = 0%nat /\
    error_lines evs =
      match result_of (loop ps totals s) with
      | Some (inl _) => 1%nat
      | _ => 0%nat
      end /\
    (closes evs <= opens evs <= closes evs + 1)%nat /\
    (fd_closes evs <= length (opened_images evs) <= fd_closes evs + 1)%nat /\
    (forall totals',
       result_of (loop ps totals s) = Some (inr totals') ->
       closes evs = opens evs /\
       fd_closes evs = length (opened_images evs)).
Proof.
  destruct (loop_counts ps totals s) as (evs & Htr & Hmm & Hm & He).
  destruct (loop_releases ps totals s) as (evs' & Htr' & Hc & Hf & Hok).
  rewrite Htr in Htr'. apply app_inv_head in Htr'. subst evs'.
  exists evs. repeat split; auto; try lia; now destruct (Hok totals').
Qed.

(** The figures of the per-partition lines of a loop that runs to its
    end. *)
Lemma loop_figures ps :
  forall totals (s : State W),
  exists evs,
    trace (state_of (loop ps totals s)) = trace s ++ evs /\
    (forall totals',
       result_of (loop ps totals s) = Some (inr totals') ->
       totals' = accumulate totals (omap reported evs) /\
       map fst (omap reported evs)
         = map estimate_cow_size (List.filter (selected names) ps)).
Proof.
  induction ps as [|p ps IH]; intros totals s.
  - exists []. simpl. rewrite app_nil_r. split; [reflexivity|].
    intros totals' [= <-]. auto.
  - simpl List.filter. destruct (selected names p) eqn:Hsel.
    + rewrite (loop_round _ _ _ _ _ _ _ _ Hsel).
      destruct (ProcessPartition_counts p (logged s INFO [Str (partition_name p)]))
        as (evs1 & Htr & _ & _ & Hrep & _).
      destruct (ProcessPartition _ _ _ _ _) as [[|] s1|s1]; simpl in Htr.
      * destruct (FileSize_path _ _) as [actual w2].
        match goal with
        | |- context [loop ps ?t ?st] =>
            destruct (IH t st) as (evs2 & Htr2 & Hsum)
        end.
        eexists ([_] ++ evs1 ++ [_; _] ++ evs2). split.
        { rewrite Htr2. simpl. rewrite Htr. simpl.
          rewrite <- !app_assoc. reflexivity. }
        intros totals' Hres. destruct (Hsum totals' Hres) as [-> Hest].
        rewrite !omap_app, Hrep. simpl. rewrite Hest. auto.
      * eexists (_ :: evs1). split.
        { simpl. rewrite Htr. simpl. rewrite <- app_assoc. reflexivity. }
        discriminate.
      * eexists (_ :: evs1). split.
        { simpl. rewrite Htr. simpl. rewrite <- app_assoc. reflexivity. }
        discriminate.
    + rewrite (loop_skip _ _ _ _ _ _ _ _ Hsel). apply IH.
Qed.

(** X5: When the loop runs to its end, the totals it hands over are the totals
    it started from plus, modulo 2^64, the figures of the per-partition lines
    it logged; the estimates on these lines are those of the selected
    partitions, in manifest order. *)
Theorem totals_are_sums_of_logged_lines ps :
  forall totals (s : State W),
  exists evs,
    trace (state_of (loop ps totals s)) = trace s ++ evs /\
    (forall totals',
       result_of (loop ps totals s) = Some (inr totals') ->
       totals' = accumulate totals (omap reported evs) /\
       map fst (omap reported evs)
         = map estimate_cow_size (List.filter (selected names) ps)).
Proof. exact (loop_figures ps). Qed.

Lemma accumulate_wraps figures :
  forall totals,
    Int.to_uint64 (fst (accumulate totals figures))
      = Int.to_uint64 (fst totals + sum_of (map fst figures)) /\
    Int.to_uint64 (snd (accumulate totals figures))
      = Int.to_uint64 (snd totals + sum_of (map snd figures)).
Proof.
  unfold accumulate.
  induction figures as [|f figures IH]; intros totals; simpl.
  - now rewrite !Z.add_0_r.
  - destruct (IH (Int.add64 (fst totals) (fst f),
                  Int.add64 (snd totals) (snd f))) as [H1 H2].
    rewrite H1, H2. simpl. unfold Int.add64, Int.to_uint64.
    rewrite !Zplus_mod_idemp_l, !Z.add_assoc. auto.
Qed.

Lemma accumulate_in_range figures :
  forall totals,
    Int.to_uint64 (fst totals) = fst totals ->
    Int.to_uint64 (snd totals) = snd totals ->
    Int.to_uint64 (fst (accumulate totals figures))
      = fst (accumulate totals figures) /\
    Int.to_uint64 (snd (accumulate totals figures))
      = snd (accumulate totals figures).
Proof.
  unfold accumulate.
  induction figures as [|f figures IH]; intros totals H1 H2; simpl.
  - auto.
  - apply IH; simpl; unfold Int.add64, Int.to_uint64; apply Zmod_mod.
Qed.

(** X6: From totals of zero, as in [main], the totals of a loop that runs to
    its end are the plain sums modulo 2^64: of the estimates of the selected
    partitions, and of the sizes measured (a size of -1, for an output that
    could not be measured, takes one off the sum). *)
Theorem totals_wrap_modulo_2_64 ps (s : State W) totals' :
  result_of (loop ps (0, 0) s) = Some (inr totals') ->
  exists evs,
    trace (state_of (loop ps (0, 0) s)) = trace s ++ evs /\
    fst totals'
      = Int.to_uint64
          (sum_of (map estimate_cow_size (List.filter (selected names) ps))) /\
    snd totals' = Int.to_uint64 (sum_of (map snd (omap reported evs))).
Proof.
  intros Hres.
  destruct (loop_figures ps (0, 0) s) as (evs & Htr & Hsum).
  destruct (Hsum totals' Hres) as [-> Hest].
  exists evs. split; [exact Htr|].
  destruct (accumulate_wraps (omap reported evs) (0, 0)) as [H1 H2].
  destruct (accumulate_in_range (omap reported evs) (0, 0)) as [R1 R2];
    [reflexivity|reflexivity|].
  rewrite <- R1, <- R2, H1, H2, Hest. auto.
Qed.

(** [ProcessPartition] returns true only with a non-zero block size. *)
Lemma ProcessPartition_true_block_size p (s s' : State W) :
  ProcessPartition flags manifest p images_dir s = Done true s' ->
  block_size manifest <> 0.
Proof.
  by_path manifest; intros Hpp; try discriminate. assumption.
Qed.

(** X7: With a block size of zero in the manifest no partition is ever
    processed to the end: the loop runs to its end only when it selects
    nothing, and it then leaves the totals and the state as they were. *)
Theorem zero_block_size_completes_only_when_nothing_selected ps :
  block_size manifest = 0 ->
  forall totals (s : State W) totals' s',
    loop ps totals s = Done (inr totals') s' ->
    List.filter (selected names) ps = [] /\ totals' = totals /\ s' = s.
Proof.
  intros Hzero. induction ps as [|p ps IH]; intros totals s totals' s' Hloop.
  - simpl in Hloop. unfold ret in Hloop. injection Hloop as <- <-. auto.
  - simpl List.filter. destruct (selected names p) eqn:Hsel.
    + rewrite (loop_round _ _ _ _ _ _ _ _ Hsel) in Hloop.
      destruct (ProcessPartition _ _ _ _ _) as [[|] s1|s1] eqn:Hpp;
        try discriminate.
      apply ProcessPartition_true_block_size in Hpp. contradiction.
    + rewrite (loop_skip _ _ _ _ _ _ _ _ Hsel) in Hloop. now apply IH.
Qed.



End MoreLoop.

(** ** More on [main] *)

Section MoreMain.

Context {W : Type} {world_ops : World W}.
Variable flags : Flags.
Variable argv0 : string.

Ltac run_to_mmap Hargc Hopen Hsize Hmmap :=
  unfold main; rewrite (argc_is_3 _ Hargc);
  unfold with_ScopedFdCloser, with_munmapper, LOG, PLOG, emit,
    bind, call, call_partial, ret;
  simpl; rewrite Hopen; simpl;
  match goal with
  | |- context [?fd <? 0] => destruct (Z.ltb_spec fd 0); [lia|]
  end; simpl;
  rewrite Hsize; simpl;
  match goal with
  | |- context [?n <=? 0] => destruct (Z.leb_spec n 0); [lia|]
  end; simpl;
  rewrite Hmmap; simpl.

(** A parser that faults takes the process with it. *)
Lemma main_parser_faults positional (s : State W) fd w1 payload_size w2
    payload w3 :
  length positional = 2%nat ->
  sys_open (nth 0 positional "") O_RDONLY None (world s) = (fd, w1) ->
  0 <= fd ->
  FileSize_fd fd w1 = (payload_size, w2) ->
  0 < payload_size ->
  sys_mmap payload_size PROT_READ MAP_PRIVATE fd 0 w2 = (payload, w3) ->
  payload <> nullptr ->
  ParsePayloadHeader payload payload_size w3 = None \/
  (exists w4,
     ParsePayloadHeader payload payload_size w3 = Some (kSuccess, w4) /\
     GetManifest payload payload_size w4 = None) ->
  result_of (main flags argv0 positional s) = None.
Proof.
  intros Hargc Hopen Hfd Hsize Hpos Hmmap Hnn Hfault.
  run_to_mmap Hargc Hopen Hsize Hmmap.
  destruct (Z.eqb_spec payload nullptr); [contradiction|]. simpl.
  destruct Hfault as [Hparse|(w4 & Hparse & Hget)].
  - rewrite Hparse. reflexivity.
  - rewrite Hparse. simpl. rewrite Hget. reflexivity.
Qed.

Lemma main_returns_sound positional (s : State W) code s' :
  main_returns flags argv0 positional s code s' ->
  main flags argv0 positional s = Done code s'.
Proof.
  intros [Hargc
         |fd w1 Hargc Hopen Hfd
         |fd w1 sz w2 Hargc Hopen Hfd Hsize Hle
         |fd w1 sz w2 w3 Hargc Hopen Hfd Hsize Hpos Hmmap
         |fd w1 sz w2 payload w3 parsed w4
            Hargc Hopen Hfd Hsize Hpos Hmmap Hnn Hparse Hne
         |fd w1 sz w2 payload w3 w4 w5
            Hargc Hopen Hfd Hsize Hpos Hmmap Hnn Hparse Hget
         |fd sz payload m s5 s6 Hfe Hfail
         |fd sz payload m s5 totals s6 Hfe Hall].
  - now apply main_usage.
  - now apply (main_open_fails flags argv0 positional s fd w1).
  - now apply (main_size_fails flags argv0 positional s fd w1 sz w2).
  - now apply (main_mmap_null flags argv0 positional s fd w1 sz w2 w3).
  - now apply (main_header_fails flags argv0 positional s fd w1 sz w2
                 payload w3 parsed w4).
  - now apply (main_manifest_fails flags argv0 positional s fd w1 sz w2
                 payload w3 w4 w5).
  - rewrite (main_after_frontend _ _ _ _ _ _ _ _ _ Hfe).
    assert (Hloop : for_each_partition flags m (names_of flags)
                      (nth 1 positional "") (partitions m) (0, 0) s5
                    = Done (inl 6) s6) by (apply loop_returns; auto).
    now rewrite Hloop.
  - rewrite (main_after_frontend _ _ _ _ _ _ _ _ _ Hfe).
    apply loop_completes in Hall. now rewrite Hall.
Qed.

Lemma main_returns_complete positional (s : State W) code s' :
  main flags argv0 positional s = Done code s' ->
  main_returns flags argv0 positional s code s'.
Proof.
  intros Hmain.
  destruct (Nat.eq_dec (length positional) 2%nat) as [Hargc|Hargc].
  2: { rewrite (main_usage flags argv0 positional s Hargc) in Hmain.
       injection Hmain as <- <-. now constructor. }
  destruct (sys_open (nth 0 positional "") O_RDONLY None (world s))
    as [fd w1] eqn:Hopen.
  destruct (Z.lt_ge_cases fd 0) as [Hfd|Hfd].
  { rewrite (main_open_fails flags argv0 positional s fd w1 Hargc Hopen Hfd)
      in Hmain.
    injection Hmain as <- <-. now apply (returns_open_failed _ _ _ _ fd w1). }
  destruct (FileSize_fd fd w1) as [sz w2] eqn:Hsize.
  destruct (Z.le_gt_cases sz 0) as [Hle|Hpos].
  { rewrite (main_size_fails flags argv0 positional s fd w1 sz w2
               Hargc Hopen Hfd Hsize Hle) in Hmain.
    injection Hmain as <- <-.
    now apply (returns_size_failed _ _ _ _ fd w1 sz w2). }
  destruct (sys_mmap sz PROT_READ MAP_PRIVATE fd 0 w2) as [payload w3] eqn:Hmmap.
  destruct (Z.eq_dec payload nullptr) as [->|Hnn].
  { rewrite (main_mmap_null flags argv0 positional s fd w1 sz w2 w3
               Hargc Hopen Hfd Hsize Hpos Hmmap) in Hmain.
    injection Hmain as <- <-.
    now apply (returns_mmap_null _ _ _ _ fd w1 sz w2 w3). }
  destruct (ParsePayloadHeader payload sz w3) as [[parsed w4]|] eqn:Hparse.
  2: { pose proof (main_parser_faults positional s fd w1 sz w2 payload w3
                     Hargc Hopen Hfd Hsize Hpos Hmmap Hnn (or_introl Hparse))
         as Hnone.
       rewrite Hmain in Hnone. discriminate. }
  destruct (MetadataParseResult_eqb parsed kSuccess) eqn:Hk.
  2: { assert (Hne : parsed <> kSuccess) by (intros ->; discriminate).
       rewrite (main_header_fails flags argv0 positional s fd w1 sz w2
                  payload w3 parsed w4
                  Hargc Hopen Hfd Hsize Hpos Hmmap Hnn Hparse Hne) in Hmain.
       injection Hmain as <- <-.
       now apply (returns_header_failed _ _ _ _ fd w1 sz w2 payload w3
                    parsed w4). }
  assert (parsed = kSuccess) as -> by (destruct parsed; easy).
  destruct (GetManifest payload sz w4) as [[[m|] w5]|] eqn:Hget.
  - pose proof (FrontEnd_intro positional s fd sz payload m _ _ _ _ _
                  Hargc Hopen Hfd Hsize Hpos Hmmap Hnn Hparse Hget) as Hfe.
    rewrite (main_after_frontend _ _ _ _ _ _ _ _ _ Hfe) in Hmain.
    destruct (for_each_partition _ _ _ _ _ _ _) as [[c|totals] s6|s6] eqn:Hloop;
      [| |discriminate].
    + injection Hmain as <- <-.
      apply loop_returns in Hloop. destruct Hloop as [-> Hff].
      eapply returns_partition_failed; eauto.
    + injection Hmain as <- <-.
      apply loop_completes in Hloop.
      eapply returns_success; eauto.
  - rewrite (main_manifest_fails flags argv0 positional s fd w1 sz w2
               payload w3 w4 w5
               Hargc Hopen Hfd Hsize Hpos Hmmap Hnn Hparse Hget) in Hmain.
    injection Hmain as <- <-.
    now apply (returns_manifest_failed _ _ _ _ fd w1 sz w2 payload w3 w4 w5).
  - pose proof (main_parser_faults positional s fd w1 sz w2 payload w3
                  Hargc Hopen Hfd Hsize Hpos Hmmap Hnn
                  (or_intror (ex_intro _ w4 (conj Hparse Hget)))) as Hnone.
    rewrite Hmain in Hnone. discriminate.
Qed.

(** X10: [main] returns in exactly eight ways, one per exit code: the exit
    code tells which phase failed, and the final state lists every call made.
    *)
Theorem main_returns_iff positional (s : State W) code s' :
  main flags argv0 positional s = Done code s' <->
  main_returns flags argv0 positional s code s'.
Proof.
  split; [apply main_returns_complete|apply main_returns_sound].
Qed.

(** X11: With an [mmap] that never returns the null pointer (it returns a
    mapping or [MAP_FAILED]), no run ends with exit code 3. *)
Theorem exit_code_3_needs_a_null_mapping positional (s : State W) :
  (forall len prot fl fd off w,
     fst (sys_mmap len prot fl fd off w) <> nullptr) ->
  result_of (main flags argv0 positional s) <> Some 3.
Proof.
  intros Hmmap Hres.
  destruct (main flags argv0 positional s) as [code s'|s'] eqn:Hmain;
    [|discriminate].
  injection Hres as ->.
  apply main_returns_complete in Hmain.
  inversion Hmain; subst.
  match goal with
  | H : sys_mmap ?l ?p ?f ?d ?o ?w = (nullptr, _) |- _ =>
      apply (Hmmap l p f d o w); now rewrite H
  end.
Qed.

Ltac tally :=
  unfold closes, opens, fd_closes, mmaps, munmaps, error_lines,
    opened_images in *;
  simpl in *;
  first [ reflexivity | lia | (intros; split; first [reflexivity | lia]) ].

(** What a returning run adds to the trace. *)
Lemma main_counts positional (s : State W) code s' :
  main flags argv0 positional s = Done code s' ->
  exists evs,
    trace s' = trace s ++ evs /\
    munmaps evs =
      (if (code =? 0) || (code =? 4) || (code =? 5) || (code =? 6)
       then 1%nat else 0%nat) /\
    mmaps evs =
      (if (code =? -1) || (code =? 1) || (code =? 2)
       then 0%nat else 1%nat) /\
    error_lines evs =
      (if (code =? 0) || (code =? -1) then 0%nat else 1%nat) /\
    (closes evs <= opens evs <= closes evs + 1)%nat /\
    (fd_closes evs <= length (opened_images evs) <= fd_closes evs + 1)%nat /\
    (code <> 1 -> code <> 6 ->
     closes evs = opens evs /\
     fd_closes evs = length (opened_images evs)).
Proof.
  intros Hmain. apply main_returns_complete in Hmain.
  inversion Hmain; subst;
    try (eexists; unfold at_exit, closed, unmapped, record; simpl;
         rewrite <- ?app_assoc; simpl;
         split; [reflexivity|];
         repeat (split; [tally|]); first [tally | congruence]).
  - match goal with
    | H : first_failure _ _ _ _ _ _ _ _ |- _ =>
        assert (Hloop : for_each_partition flags m (names_of flags)
                          (nth 1 positional "") (partitions m) (0, 0) s5
                        = Done (inl 6) s6) by (apply loop_returns; auto)
    end.
    destruct (loop_tally flags m (names_of flags) (nth 1 positional "")
                (partitions m) (0, 0) s5)
      as (evs & Htr & Hmm & Hm & He & Hc & Hf & _).
    rewrite Hloop in Htr, He. simpl in Htr, He.
    match goal with
    | H : FrontEnd _ _ _ _ _ _ _ |- _ => inversion H; subst
    end.
    eexists ([_; _; _; _; _] ++ evs ++ [_; _]). split.
    { unfold at_exit, closed, unmapped, record. simpl. rewrite Htr. simpl.
      rewrite <- !app_assoc. reflexivity. }
    rewrite !closes_app, !opens_app, !fd_closes_app, !fd_opens_app,
      !munmaps_app, !mmaps_app, !error_lines_app, Hmm, Hm, He.
    repeat (split; [tally|]). congruence.
  - match goal with
    | H : processes_all _ _ _ _ _ _ _ _ _ |- _ =>
        apply loop_completes in H; rename H into Hloop
    end.
    destruct (loop_tally flags m (names_of flags) (nth 1 positional "")
                (partitions m) (0, 0) s5)
      as (evs & Htr & Hmm & Hm & He & Hc & Hf & Hok).
    rewrite Hloop in Htr, He, Hok. simpl in Htr, He, Hok.
    destruct (Hok totals eq_refl) as [Hc1 Hf1].
    match goal with
    | H : FrontEnd _ _ _ _ _ _ _ |- _ => inversion H; subst
    end.
    eexists ([_; _; _; _; _] ++ evs ++ [_; _; _]). split.
    { unfold at_exit, closed, unmapped, logged, record. simpl.
      rewrite Htr. simpl. rewrite <- !app_assoc. reflexivity. }
    rewrite !closes_app, !opens_app, !fd_closes_app, !fd_opens_app,
      !munmaps_app, !mmaps_app, !error_lines_app, Hmm, Hm, He.
    repeat (split; [tally|]). tally.
Qed.


(** X13: A run that returns logs no error line when it exits with 0 or with
    the usage code, and exactly one error line for every other exit code. *)
Theorem one_error_line_per_failure positional (s : State W) code s' :
  main flags argv0 positional s = Done code s' ->
  exists evs,
    trace s' = trace s ++ evs /\
    error_lines evs = (if (code =? 0) || (code =? -1) then 0%nat else 1%nat).
Proof.
  intros Hmain.
  destruct (main_counts positional s code s' Hmain)
    as (evs & Htr & _ & _ & He & _).
  exists evs. auto.
Qed.


(** X15: A run that selects no partition succeeds, and its aggregate line
    divides zero by zero: the percentage it carries is NaN. *)
Theorem empty_selection_reports_nan positional (s : State W) fd payload_size
    payload m s5 :
  FrontEnd positional s fd payload_size payload m s5 ->
  List.filter (selected (names_of flags)) (partitions m) = [] ->
  main flags argv0 positional s
    = Done 0 (at_exit fd payload_size payload
                (logged s5 INFO (total_line 0 0))) /\
  line_percent (total_line 0 0) = Some S754_nan.
Proof.
  intros Hfe Hnone. split; [|vm_compute; reflexivity].
  rewrite (main_after_frontend _ _ _ _ _ _ _ _ _ Hfe).
  now rewrite loop_filter, Hnone.
Qed.

End MoreMain.

(** ** The name set built from [--partitions] *)

Lemma flush_token_acc cur acc :
  flush_token cur acc = acc ++ flush_token cur [].
Proof. unfold flush_token. destruct (String.eqb cur ""); simpl; [now rewrite app_nil_r|reflexivity]. Qed.

Lemma tokenize_go_acc d s :
  forall cur acc, tokenize_go d s cur acc = acc ++ tokenize_go d s cur [].
Proof.
  induction s as [|c s IH]; intros cur acc; simpl.
  - apply flush_token_acc.
  - destruct (is_delimiter d c).
    + rewrite (IH "" (flush_token cur acc)), (IH "" (flush_token cur [])).
      rewrite (flush_token_acc cur acc). now rewrite app_assoc.
    + apply IH.
Qed.

Lemma tokenize_go_split d c s1 s2 :
  is_delimiter d c = true ->
  forall cur acc,
    tokenize_go d (s1 +:+ String c s2) cur acc
    = tokenize_go d s2 "" (tokenize_go d s1 cur acc).
Proof.
  intros Hc. induction s1 as [|a s1 IH]; intros cur acc; simpl.
  - now rewrite Hc.
  - destruct (is_delimiter d a); apply IH.
Qed.

Lemma Tokenize_split d c s1 s2 :
  is_delimiter d c = true ->
  Tokenize (s1 +:+ String c s2) d = Tokenize s1 d ++ Tokenize s2 d.
Proof.
  intros Hc. unfold Tokenize.
  rewrite (tokenize_go_split d c s1 s2 Hc). apply tokenize_go_acc.
Qed.

(** X16: Joining two values of [--partitions] with a comma selects the union
    of the names each of them selects. *)
Theorem names_of_comma_is_union flags flags1 flags2 :
  FLAGS_partitions flags
    = FLAGS_partitions flags1 +:+ "," +:+ FLAGS_partitions flags2 ->
  names_of flags = names_of flags1 ∪ names_of flags2.
Proof.
  intros H. unfold names_of. rewrite H.
  change ("," +:+ FLAGS_partitions flags2)
    with (String "," (FLAGS_partitions flags2)).
  rewrite Tokenize_split by reflexivity.
  apply list_to_set_app_L.
Qed.

Lemma tokenize_go_nil d s :
  forall cur acc,
    tokenize_go d s cur acc = [] <->
    acc = [] /\ cur = "" /\
    Forall (fun c => is_delimiter d c = true) (list_ascii_of_string s).
Proof.
  induction s as [|c s IH]; intros cur acc; simpl.
  - unfold flush_token. destruct (String.eqb_spec cur "") as [->|Hne].
    + split; [auto|tauto].
    + split.
      * intros H. destruct acc; discriminate.
      * intros (_ & Hc & _). contradiction.
  - destruct (is_delimiter d c) eqn:Hc.
    + rewrite IH. unfold flush_token.
      destruct (String.eqb_spec cur "") as [->|Hne].
      * split.
        -- intros (-> & _ & Hs). auto.
        -- intros (-> & _ & Hs). inversion Hs; subst. auto.
      * split.
        -- intros (H & _). destruct acc; discriminate.
        -- intros (_ & Hcur & _). contradiction.
    + rewrite IH. split.
      * intros (_ & H & _). destruct cur; discriminate.
      * intros (_ & _ & Hs). inversion Hs; subst. congruence.
Qed.

(** X17: The name set is empty, so that every partition passes the filter,
    exactly when [--partitions] holds nothing but commas (the empty value
    included). *)
Theorem names_of_empty_iff_only_commas flags :
  names_of flags = ∅ <->
  Forall (fun c => c = ","%char) (list_ascii_of_string (FLAGS_partitions flags)).
Proof.
  unfold names_of. split.
  - intros H.
    assert (Hnil : Tokenize (FLAGS_partitions flags) "," = []).
    { destruct (Tokenize (FLAGS_partitions flags) ",") as [|t l] eqn:Ht;
        [reflexivity|].
      assert (Hin : t ∈ (list_to_set (t :: l) : gset string))
        by (apply elem_of_list_to_set; left).
      rewrite H in Hin. now apply not_elem_of_empty in Hin. }
    apply tokenize_go_nil in Hnil. destruct Hnil as (_ & _ & Hall).
    eapply Forall_impl; [exact Hall|].
    intros c Hc.
    cbv beta in Hc. unfold is_delimiter in Hc. simpl in Hc.
    rewrite orb_false_r in Hc. now apply Ascii.eqb_eq.
  - intros Hall.
    assert (Hnil : Tokenize (FLAGS_partitions flags) "," = []).
    { apply tokenize_go_nil. repeat split; auto.
      eapply Forall_impl; [exact Hall|].
      intros c ->. reflexivity. }
    now rewrite Hnil.
Qed.

(** ** Concrete runs of the further properties *)

Section MoreConcrete.

Import Sim Scenario Edge.

Lemma exit_code_3_needs_a_null_mapping_witness :
  (forall len prot fl fd off (w : machine),
     fst (mmap len prot fl fd off w) <> nullptr) /\
  result_of (run no_flags world_abc) <> Some 3 /\
  result_of (run no_flags (break_mmap world_abc)) <> Some 3.
Proof.
  assert (H : forall len prot fl fd off (w : machine),
            fst (sys_mmap len prot fl fd off w) <> nullptr).
  { intros len prot fl fd off w. simpl. unfold mmap.
    destruct (mmap_fails w); discriminate. }
  refine (conj H (conj _ _)).
  - exact (exit_code_3_needs_a_null_mapping (world_ops := ops) no_flags
             "cow_converter" positional (start world_abc) H).
  - exact (exit_code_3_needs_a_null_mapping (world_ops := ops) no_flags
             "cow_converter" positional (start (break_mmap world_abc)) H).
Defined.


Lemma one_error_line_per_failure_witness :
  result_of (run no_flags world_C_rejected) = Some 6 /\
  exists evs,
    trace (state_of (run no_flags world_C_rejected)) = [] ++ evs /\
    error_lines evs = 1%nat.
Proof.
  assert (H : main (world_ops := ops) no_flags "cow_converter" positional
                (start world_C_rejected)
              = Done 6 (state_of (run no_flags world_C_rejected)))
    by (vm_compute; reflexivity).
  refine (conj _ _).
  - unfold run. change ["payload.bin"; "out"] with positional.
    rewrite H. reflexivity.
  - exact (one_error_line_per_failure (world_ops := ops) no_flags
             "cow_converter" positional (start world_C_rejected) 6 _ H).
Defined.


Lemma totals_wrap_modulo_2_64_witness :
  exists evs,
    trace (state_of (for_each_partition no_flags abc (names_of no_flags) "out"
                       [A; B; C] (0, 0) (loop_start world_abc)))
      = trace (loop_start world_abc) ++ evs /\
    300 = Int.to_uint64
            (sum_of (map estimate_cow_size
                       (List.filter (selected (names_of no_flags)) [A; B; C]))) /\
    400 = Int.to_uint64 (sum_of (map snd (omap reported evs))).
Proof.
  assert (H : result_of
                (for_each_partition (world_ops := ops) no_flags abc
                   (names_of no_flags) "out" [A; B; C] (0, 0)
                   (loop_start world_abc))
              = Some (inr (300, 400)))
    by (vm_compute; reflexivity).
  exact (totals_wrap_modulo_2_64 (world_ops := ops) no_flags abc
           (names_of no_flags) "out" [A; B; C] (loop_start world_abc)
           (300, 400) H).
Defined.

Lemma zero_block_size_completes_only_when_nothing_selected_witness :
  block_size zero_blocks = 0 /\
  for_each_partition flags_Z zero_blocks (names_of flags_Z) "out" [A] (0, 0)
    (loop_start world_zero_blocks)
  = Done (inr (0, 0)) (loop_start world_zero_blocks) /\
  List.filter (selected (names_of flags_Z)) [A] = [].
Proof.
  assert (H : for_each_partition (world_ops := ops) flags_Z zero_blocks
                (names_of flags_Z) "out" [A] (0, 0)
                (loop_start world_zero_blocks)
              = Done (inr (0, 0)) (loop_start world_zero_blocks))
    by (vm_compute; reflexivity).
  refine (conj eq_refl (conj H _)).
  exact (proj1 (zero_block_size_completes_only_when_nothing_selected
                  (world_ops := ops) flags_Z zero_blocks (names_of flags_Z)
                  "out" [A] eq_refl (0, 0) (loop_start world_zero_blocks)
                  (0, 0) (loop_start world_zero_blocks) H)).
Defined.

Lemma empty_selection_reports_nan_witness :
  List.filter (selected (names_of flags_Z)) (partitions abc) = [] /\
  run flags_Z world_abc
    = Done 0 (at_exit 3 1000 mapped_at
                (logged (loop_start world_abc) INFO (total_line 0 0))) /\
  line_percent (total_line 0 0) = Some S754_nan.
Proof.
  assert (H : List.filter (selected (names_of flags_Z)) (partitions abc) = [])
    by (vm_compute; reflexivity).
  refine (conj H _).
  exact (empty_selection_reports_nan (world_ops := ops) flags_Z
           "cow_converter" positional (start world_abc) 3 1000 mapped_at abc
           (loop_start world_abc) frontend_abc H).
Defined.

Lemma names_of_comma_is_union_witness :
  names_of flags_AC = names_of (flags_of "A") ∪ names_of (flags_of "C").
Proof.
  exact (names_of_comma_is_union flags_AC (flags_of "A") (flags_of "C")
           eq_refl).
Defined.

(** With a block size of zero the division is reached as soon as the image
    and the output are open. *)
Lemma ProcessPartition_faults_iff_witness :
  result_of (ProcessPartition no_flags zero_blocks A "out"
               (loop_start world_zero_blocks)) = None /\
  result_of (run no_flags world_zero_blocks) = None /\
  block_size zero_blocks = 0.
Proof.
  assert (H : ProcessPartition (world_ops := ops) no_flags zero_blocks A "out"
                (loop_start world_zero_blocks)
              = Undefined
                  (state_of (ProcessPartition no_flags zero_blocks A "out"
                               (loop_start world_zero_blocks))))
    by (vm_compute; reflexivity).
  destruct (proj1 (ProcessPartition_faults_iff (world_ops := ops) no_flags
                     zero_blocks A "out" (loop_start world_zero_blocks) _) H)
    as (w1 & fd & w2 & _ & _ & _ & Hzero & _).
  refine (conj _ (conj _ Hzero)).
  - rewrite H. reflexivity.
  - vm_compute. reflexivity.
Defined.

End MoreConcrete.
